(** * SillyRPC plugin: transport selection and activity dispatch

    A shallow embedding of [src/index.ts].  The module-level variables
    [config], [rpcClient] and [wsClient] become fields of a state record; the
    objects handed out by the two client libraries live in a store indexed by
    handles, so that a handle the plugin no longer references still exists and
    can still emit events.  Every call that leaves the plugin (console, file
    system, discord-rpc, ws, router) is appended to a trace.

    The two client libraries, the file system and the builtins of the
    runtime are not part of the repository.  Calls into them are recorded.
    Three exceptions can reach the plugin synchronously and are modelled: the
    [TypeError] that JavaScript raises on a property access on [undefined] or
    [null], the [SyntaxError] of [new WebSocket(url)] for a url it cannot
    use, and the [RangeError] of [setActivity] for a timestamp beyond
    2147483647000. *)

From Stdlib Require Import ZArith String List.
From stdpp Require Import base option list gmap strings.
Import ListNotations.
Local Open Scope string_scope.
Local Open Scope list_scope.

(** ** JavaScript values

    The values a JSON body or the configuration file can hold, and
    [undefined].  Numbers are integers: the plugin never computes with them,
    it only passes them on.  An object lists each of its keys once. *)

#[local] Set Warnings "-register-all".

Inductive JsVal : Type :=
| JUndefined
| JNull
| JBool (b : bool)
| JNum (n : Z)
| JStr (s : string)
| JArr (items : list JsVal)
| JObj (fields : list (string * JsVal)).

Fixpoint field (k : string) (fs : list (string * JsVal)) : JsVal :=
  match fs with
  | [] => JUndefined
  | (k', v) :: fs' => if String.eqb k k' then v else field k fs'
  end.

(** [v.k] for the property names the plugin reads ([clientId], [mode],
    [agentUrl], [details], [state], [largeImageKey], [startTimestamp]): none
    of them is defined on a primitive or an array, so only objects answer
    with something else than [undefined].  [None] is the [TypeError] of a
    property access on [undefined] or [null]. *)
Definition prop (v : JsVal) (k : string) : option JsVal :=
  match v with
  | JUndefined | JNull => None
  | JObj fs => Some (field k fs)
  | _ => Some JUndefined
  end.

(** [v === 'lit'] *)
Definition is_string (v : JsVal) (lit : string) : bool :=
  match v with
  | JStr s => String.eqb s lit
  | _ => false
  end.

(** ** Library objects *)

Abbreviation handle := nat.

Inductive Kind := RpcClientObj | WebSocketObj.

(** Lifecycle of a transport handle.  [Ready] is [WebSocket.OPEN] for a
    socket; the closing and closed states of a socket are both [Closed], the
    plugin only ever tests for [OPEN]. *)
Inductive Lifecycle := Uninitialized | Connecting | Ready | Closed.

Inductive Event := EvReady | EvOpen | EvError | EvClose | EvLoginRejected.

#[global] Instance Event_eq_dec : EqDecision Event.
Proof. solve_decision. Defined.

(** The closures the plugin registers, one constructor per arrow function of
    [initLocalRpc] and [initRemoteWs]. *)
Inductive Listener :=
| OnRpcReady
| OnRpcError
| OnRpcClose
| OnLoginFailed
| OnWsOpen (agentUrl : JsVal)
| OnWsError.

Record Obj := mkObj {
  obj_kind : Kind;
  obj_status : Lifecycle;
  obj_listeners : list (Event * Listener);
  obj_target : JsVal
}.

(** ** Effects *)

(** What a [catch] clause can receive: the [TypeError] of a property access
    on [undefined] or [null], the error of a failed file write, the
    [SyntaxError] of the WebSocket constructor and the [RangeError] of
    [setActivity]. *)
Inductive Exn := TypeError | FsError | SyntaxError | RangeError.

Inductive Colour := Green | Red | Yellow | Blue.
Inductive Level := LvLog | LvWarn | LvError.
Inductive LogArg := LogVal (v : JsVal) | LogExn (e : Exn).

Inductive Effect :=
| Console (lvl : Level) (tag : Colour) (msg : string) (extra : list LogArg)
| FsWrite (data : string)
| RpcNew (h : handle)
| RpcRegister (clientId : JsVal)
| RpcLogin (h : handle) (clientId : JsVal)
| RpcDestroy (h : handle)
| RpcSetActivity (h : handle) (activity : JsVal)
| WsNew (h : handle) (url : JsVal)
| WsRefused (url : JsVal)
| WsClose (h : handle)
| WsSend (h : handle) (data : string)
| RouterPost (path : string).

Inductive Response :=
| SendStatus (code : Z)
| StatusSend (code : Z) (text : string)
| SendJson (v : JsVal).

(** ** Program state *)

Record State := mkState {
  config : JsVal;
  rpcClient : option handle;
  wsClient : option handle;
  heap : gmap nat Obj;
  next_handle : handle;
  trace : list Effect
}.

Definition set_config (c : JsVal) (s : State) : State :=
  mkState c (rpcClient s) (wsClient s) (heap s) (next_handle s) (trace s).
Definition set_rpcClient (r : option handle) (s : State) : State :=
  mkState (config s) r (wsClient s) (heap s) (next_handle s) (trace s).
Definition set_wsClient (w : option handle) (s : State) : State :=
  mkState (config s) (rpcClient s) w (heap s) (next_handle s) (trace s).
Definition set_heap (hp : gmap nat Obj) (s : State) : State :=
  mkState (config s) (rpcClient s) (wsClient s) hp (next_handle s) (trace s).
Definition set_next_handle (n : handle) (s : State) : State :=
  mkState (config s) (rpcClient s) (wsClient s) (heap s) n (trace s).
Definition add_effect (e : Effect) (s : State) : State :=
  mkState (config s) (rpcClient s) (wsClient s) (heap s) (next_handle s)
          (trace s ++ [e]).

(** ** A state and exception monad *)

Inductive Res (A : Type) : Type :=
| Ok (a : A) (s : State)
| Throw (e : Exn) (s : State).
Arguments Ok {A} a s.
Arguments Throw {A} e s.

Definition M (A : Type) : Type := State -> Res A.

Definition ret {A} (a : A) : M A := fun s => Ok a s.
Definition bind {A B} (m : M A) (k : A -> M B) : M B :=
  fun s => match m s with
           | Ok a s' => k a s'
           | Throw e s' => Throw e s'
           end.
Definition throw {A} (e : Exn) : M A := fun s => Throw e s.
Definition try_catch {A} (body : M A) (handler : Exn -> M A) : M A :=
  fun s => match body s with
           | Ok a s' => Ok a s'
           | Throw e s' => handler e s'
           end.
Definition gets {A} (f : State -> A) : M A := fun s => Ok (f s) s.
Definition modify (f : State -> State) : M unit := fun s => Ok tt (f s).

Definition state_of {A} (r : Res A) : State :=
  match r with
  | Ok _ s => s
  | Throw _ s => s
  end.

Declare Scope js_scope.
Delimit Scope js_scope with js.
Notation "'let*' x ':=' m 'in' k" := (bind m (fun x => k))
  (at level 10, x name, m at level 100, k at level 200) : js_scope.
Notation "m '>>' k" := (bind m (fun _ => k))
  (at level 90, right associativity) : js_scope.
Local Open Scope js_scope.

(** [v.k], raising the [TypeError] of JavaScript when [v] has no properties *)
Definition get_prop (v : JsVal) (k : string) : M JsVal :=
  match prop v k with
  | Some x => ret x
  | None => throw TypeError
  end.

Definition emit (e : Effect) : M unit := modify (add_effect e).

Definition console_log (tag : Colour) (msg : string) (extra : list LogArg) : M unit :=
  emit (Console LvLog tag msg extra).
Definition console_warn (tag : Colour) (msg : string) (extra : list LogArg) : M unit :=
  emit (Console LvWarn tag msg extra).
Definition console_error (tag : Colour) (msg : string) (extra : list LogArg) : M unit :=
  emit (Console LvError tag msg extra).

(** ** The runtime and the libraries, as far as they are left open

    [JSON.parse] ([None] when it raises a [SyntaxError]), [JSON.stringify(v)]
    and [JSON.stringify(v, null, indent)]; the comparison [v > n] of a value
    with a number, which is the comparison of numbers on a number and never
    holds of [undefined]; and the urls for which [new WebSocket(url)] raises a
    [SyntaxError], among them [undefined] and the empty string. *)
Class Builtins := {
  JSON_parse : string -> option JsVal;
  JSON_stringify : JsVal -> string;
  JSON_stringify_indent : JsVal -> Z -> string;
  js_greater : JsVal -> Z -> bool;
  js_greater_number : forall k n, js_greater (JNum k) n = (n <? k)%Z;
  js_greater_undefined : forall n, js_greater JUndefined n = false;
  WebSocket_rejects : JsVal -> bool;
  WebSocket_rejects_undefined : WebSocket_rejects JUndefined = true;
  WebSocket_rejects_empty : WebSocket_rejects (JStr "") = true
}.

(** ** The client libraries, as far as the plugin calls them *)

Definition alloc (o : Obj) : M handle :=
  fun s =>
    let h := next_handle s in
    Ok h (set_next_handle (S h) (set_heap (<[h := o]> (heap s)) s)).

Definition update_obj (h : handle) (f : Obj -> Obj) : M unit :=
  modify (fun s => set_heap (alter f h (heap s)) s).

Definition with_status (st : Lifecycle) (o : Obj) : Obj :=
  mkObj (obj_kind o) st (obj_listeners o) (obj_target o).
Definition with_target (t : JsVal) (o : Obj) : Obj :=
  mkObj (obj_kind o) (obj_status o) (obj_listeners o) t.
Definition with_listener (ev : Event) (l : Listener) (o : Obj) : Obj :=
  mkObj (obj_kind o) (obj_status o) (obj_listeners o ++ [(ev, l)]) (obj_target o).

(** [new RPC.Client({ transport: 'ipc' })] *)
Definition new_RPC_Client : M handle :=
  let* h := alloc (mkObj RpcClientObj Uninitialized [] JUndefined) in
  emit (RpcNew h) >> ret h.

(** [RPC.register(clientId)] *)
Definition RPC_register (clientId : JsVal) : M unit := emit (RpcRegister clientId).

(** [obj.on(ev, l)], and [promise.catch(l)] for [ev = EvLoginRejected] *)
Definition on (h : handle) (ev : Event) (l : Listener) : M unit :=
  update_obj h (with_listener ev l).

(** [client.login({ clientId })]: the connection sequence starts *)
Definition rpc_login (h : handle) (clientId : JsVal) : M unit :=
  update_obj h (fun o => with_target clientId (with_status Connecting o)) >>
  emit (RpcLogin h clientId).

(** [client.destroy()] *)
Definition rpc_destroy (h : handle) : M unit :=
  update_obj h (with_status Closed) >> emit (RpcDestroy h).

(** The largest timestamp [setActivity] accepts. *)
Definition unix_limit : Z := 2147483647000.

(** [setActivity] raises a [RangeError] when [startTimestamp] or
    [endTimestamp] of its argument is greater than [unix_limit].  The plugin
    only ever passes object literals. *)
Definition setActivity_rejects `{Builtins} (activity : JsVal) : bool :=
  js_greater (default JUndefined (prop activity "startTimestamp")) unix_limit ||
  js_greater (default JUndefined (prop activity "endTimestamp")) unix_limit.

(** [client.setActivity(activity)]: the call is recorded, then the library
    checks the timestamps. *)
Definition rpc_setActivity `{Builtins} (h : handle) (activity : JsVal) : M unit :=
  emit (RpcSetActivity h activity) >>
  if setActivity_rejects activity then throw RangeError else ret tt.

(** [new WebSocket(url)]: for a url it can use the constructor yields a
    socket that starts connecting at once, for any other it raises a
    [SyntaxError] and yields no object. *)
Definition new_WebSocket `{Builtins} (url : JsVal) : M handle :=
  if WebSocket_rejects url then
    emit (WsRefused url) >> throw SyntaxError
  else
    let* h := alloc (mkObj WebSocketObj Connecting [] url) in
    emit (WsNew h url) >> ret h.

(** [socket.close()] *)
Definition ws_close (h : handle) : M unit :=
  update_obj h (with_status Closed) >> emit (WsClose h).

(** [socket.send(data)] *)
Definition ws_send (h : handle) (data : string) : M unit := emit (WsSend h data).

(** [socket.readyState === WebSocket.OPEN] *)
Definition ws_is_open (h : handle) : M bool :=
  gets (fun s => match heap s !! h with
                 | Some o => match obj_status o with Ready => true | _ => false end
                 | None => false
                 end).

(** ** The plugin *)

Definition default_config : JsVal :=
  JObj [("clientId", JStr ""); ("mode", JStr "local"); ("agentUrl", JStr "")].

Section Plugin.

Context `{Builtins}.

(** [loadConfig] runs while the module is loaded, before the state exists: it
    returns the configuration and what it printed.  [file] is the outcome of
    [fs.readFileSync(cfgPath, 'utf8')], [None] when the read raises. *)
Definition loadConfig (file : option string) : JsVal * list Effect :=
  match file with
  | Some raw =>
      match JSON_parse raw with
      | Some parsed => (parsed, [])
      | None =>
          (default_config,
           [Console LvWarn Yellow "config.json not found or invalid, using defaults." []])
      end
  | None =>
      (default_config,
       [Console LvWarn Yellow "config.json not found or invalid, using defaults." []])
  end.

(** [write_ok] is the outcome of [fs.writeFileSync], [false] when it raises. *)
Definition saveConfig (newConfig : JsVal) (write_ok : bool) : M unit :=
  if write_ok then
    emit (FsWrite (JSON_stringify_indent newConfig 2)) >>
    console_log Green "config.json updated" []
  else
    console_error Red "Failed to write config.json" [LogExn FsError].

Definition initLocalRpc (clientId : JsVal) : M unit :=
  let* h := new_RPC_Client in
  modify (set_rpcClient (Some h)) >>
  RPC_register clientId >>
  on h EvReady OnRpcReady >>
  on h EvError OnRpcError >>
  on h EvClose OnRpcClose >>
  rpc_login h clientId >>
  on h EvLoginRejected OnLoginFailed.

Definition initRemoteWs (agentUrl : JsVal) : M unit :=
  let* h := new_WebSocket agentUrl in
  modify (set_wsClient (Some h)) >>
  on h EvOpen (OnWsOpen agentUrl) >>
  on h EvError OnWsError.

Definition sendActivity (activity : JsVal) : M unit :=
  let* cfg := gets config in
  let* mode := get_prop cfg "mode" in
  if is_string mode "local" then
    let* rpc := gets rpcClient in
    match rpc with
    | None => console_error Red "RPC client not initialized" []
    | Some h => rpc_setActivity h activity
    end
  else
    let* ws := gets wsClient in
    match ws with
    | None => console_error Red "WebSocket client not connected" []
    | Some h =>
        let* is_open := ws_is_open h in
        if is_open then ws_send h (JSON_stringify activity)
        else console_error Red "WebSocket client not connected" []
    end.

(** Lines 90-91 of [init] and lines 105-106 of the settings handler. *)
Definition initTransport : M unit :=
  let* cfg := gets config in
  let* mode := get_prop cfg "mode" in
  if is_string mode "local" then
    let* clientId := get_prop cfg "clientId" in initLocalRpc clientId
  else
    let* agentUrl := get_prop cfg "agentUrl" in initRemoteWs agentUrl.

(** Lines 103-104 of the settings handler. *)
Definition releaseClients : M unit :=
  let* rpc := gets rpcClient in
  match rpc with
  | Some h => rpc_destroy h >> modify (set_rpcClient None)
  | None => ret tt
  end >>
  let* ws := gets wsClient in
  match ws with
  | Some h => ws_close h >> modify (set_wsClient None)
  | None => ret tt
  end.

(** [POST /probe] *)
Definition probe_handler : M Response := ret (SendStatus 204).

(** The [catch] block of the settings handler. *)
Definition settings_failed (error : Exn) : M Response :=
  console_error Red "Settings update failed" [LogExn error] >>
  ret (StatusSend 500 "Internal Server Error").

(** [POST /settings] *)
Definition settings_handler (body : JsVal) (write_ok : bool) : M Response :=
  try_catch
    (let* clientId := get_prop body "clientId" in
     let* mode := get_prop body "mode" in
     let* agentUrl := get_prop body "agentUrl" in
     modify (set_config
               (JObj [("clientId", clientId); ("mode", mode); ("agentUrl", agentUrl)])) >>
     let* cfg := gets config in
     saveConfig cfg write_ok >>
     releaseClients >>
     initTransport >>
     ret (SendStatus 204))
    settings_failed.

(** The [catch] block of the update handler. *)
Definition update_failed (error : Exn) : M Response :=
  console_error Red "/update error" [LogExn error] >>
  ret (StatusSend 500 "Internal Server Error").

(** [POST /update] *)
Definition update_handler (body : JsVal) : M Response :=
  try_catch
    (console_log Blue "/update payload:" [LogVal body] >>
     let* details := get_prop body "details" in
     let* state := get_prop body "state" in
     let* largeImageKey := get_prop body "largeImageKey" in
     let* startTimestamp := get_prop body "startTimestamp" in
     sendActivity
       (JObj [("details", details); ("state", state);
              ("largeImageKey", largeImageKey);
              ("startTimestamp", startTimestamp)]) >>
     ret (SendStatus 204))
    update_failed.

(** The object literal of the test endpoint; [now] is [Date.now()]. *)
Definition dummy (now : Z) : JsVal :=
  JObj [("details", JStr "Test Presence"); ("state", JStr "Testing RPC");
        ("largeImageKey", JStr "test_image"); ("startTimestamp", JNum now)].

(** [POST /test]: no [try] around the body, an exception leaves the request
    unanswered. *)
Definition test_handler (now : Z) : M Response :=
  console_log Blue "/test invoked" [] >>
  sendActivity (dummy now) >>
  ret (SendJson (JObj [("success", JBool true); ("sent", dummy now)])).

Definition init : M unit :=
  let* cfg := gets config in
  console_log Green "Plugin init, loaded config:" [LogVal cfg] >>
  initTransport >>
  emit (RouterPost "/probe") >>
  emit (RouterPost "/settings") >>
  emit (RouterPost "/update") >>
  emit (RouterPost "/test") >>
  console_log Green "Plugin loaded!" [].

Definition exit : M unit :=
  console_log Yellow "Plugin exited" [] >>
  let* rpc := gets rpcClient in
  match rpc with
  | Some h => rpc_destroy h
  | None => ret tt
  end >>
  let* ws := gets wsClient in
  match ws with
  | Some h => ws_close h
  | None => ret tt
  end.

(** The state right after the module is loaded (lines 30-32). *)
Definition boot (file : option string) : State :=
  mkState (fst (loadConfig file)) None None ∅ 0 (snd (loadConfig file)).

(** ** The environment: events of the library objects

    An object emits events on its own schedule.  The library moves the object
    along its lifecycle and then runs the listeners registered for the event,
    in registration order.  [ready] and [open] complete a pending connection;
    [error], [close] and a rejected [login] end the object's life, whatever
    state it was in. *)

Definition lib_transition (ev : Event) (st : Lifecycle) : Lifecycle :=
  match ev with
  | EvReady | EvOpen =>
      match st with
      | Connecting => Ready
      | _ => st
      end
  | EvError | EvClose | EvLoginRejected => Closed
  end.

Definition run_listener (l : Listener) (arg : JsVal) : M unit :=
  match l with
  | OnRpcReady => console_log Green "Local RPC ready" []
  | OnRpcError => console_error Red "Local RPC error" [LogVal arg]
  | OnRpcClose => console_warn Yellow "Local RPC transport closed" []
  | OnLoginFailed => console_error Red "Local RPC login failed" [LogVal arg]
  | OnWsOpen agentUrl => console_log Green "Connected to agent at" [LogVal agentUrl]
  | OnWsError => console_error Red "WS error" [LogVal arg]
  end.

Fixpoint run_listeners (ls : list (Event * Listener)) (ev : Event) (arg : JsVal)
  : M unit :=
  match ls with
  | [] => ret tt
  | (ev', l) :: rest =>
      (if bool_decide (ev = ev') then run_listener l arg else ret tt) >>
      run_listeners rest ev arg
  end.

Definition deliver (h : handle) (ev : Event) (arg : JsVal) : M unit :=
  let* found := gets (fun s => heap s !! h) in
  match found with
  | None => ret tt
  | Some o =>
      update_obj h (with_status (lib_transition ev (obj_status o))) >>
      run_listeners (obj_listeners o) ev arg
  end.

(** ** Runs of the plugin

    The host loads the module, calls [init] once and then serves requests;
    library events and [exit] may come at any time in between. *)

Inductive Op :=
| OpProbe
| OpSettings (body : JsVal) (write_ok : bool)
| OpUpdate (body : JsVal)
| OpTest (now : Z)
| OpExit
| OpDeliver (h : handle) (ev : Event) (arg : JsVal).

Definition step (op : Op) (s : State) : State :=
  match op with
  | OpProbe => state_of (probe_handler s)
  | OpSettings body write_ok => state_of (settings_handler body write_ok s)
  | OpUpdate body => state_of (update_handler body s)
  | OpTest now => state_of (test_handler now s)
  | OpExit => state_of (exit s)
  | OpDeliver h ev arg => state_of (deliver h ev arg s)
  end.

Definition run (ops : list Op) (s : State) : State :=
  fold_left (fun acc op => step op acc) ops s.

Definition Reachable (s : State) : Prop :=
  exists file s0 ops, init (boot file) = Ok tt s0 /\ s = run ops s0.

(** ** Observations on states and traces *)

(** The handles the plugin references. *)
Definition held (s : State) : gset nat :=
  match rpcClient s with Some h => {[h]} | None => ∅ end ∪
  match wsClient s with Some h => {[h]} | None => ∅ end.

Definition status_of (s : State) (h : handle) : option Lifecycle :=
  obj_status <$> heap s !! h.

(** The handle [sendActivity] would use for the current mode, when it is
    [Ready]. *)
Definition active_handle (s : State) : option handle :=
  match prop (config s) "mode" with
  | None => None
  | Some mode =>
      let cur := if is_string mode "local" then rpcClient s else wsClient s in
      match cur with
      | Some h =>
          match status_of s h with
          | Some Ready => Some h
          | _ => None
          end
      | None => None
      end
  end.

Definition creates (e : Effect) : option handle :=
  match e with
  | RpcNew h => Some h
  | WsNew h _ => Some h
  | _ => None
  end.

Definition closes (e : Effect) : option handle :=
  match e with
  | RpcDestroy h => Some h
  | WsClose h => Some h
  | _ => None
  end.

(** The connection sequence of a handle starts with [login] for the local
    client and with the constructor for a socket. *)
Definition connects (e : Effect) : option handle :=
  match e with
  | RpcLogin h _ => Some h
  | WsNew h _ => Some h
  | _ => None
  end.

Definition sends (e : Effect) : bool :=
  match e with
  | RpcSetActivity _ _ => true
  | WsSend _ _ => true
  | _ => false
  end.

(** Handles constructed and not closed since. *)
Definition track (lv : gset nat) (e : Effect) : gset nat :=
  match creates e, closes e with
  | Some h, _ => lv ∪ {[h]}
  | None, Some h => lv ∖ {[h]}
  | None, None => lv
  end.

Definition live_from (lv : gset nat) (t : list Effect) : gset nat :=
  fold_left track t lv.

Definition live (t : list Effect) : gset nat := live_from ∅ t.

(** No handle is constructed while another one is still live. *)
Fixpoint swap_ok (lv : gset nat) (t : list Effect) : bool :=
  match t with
  | [] => true
  | e :: t' =>
      (match creates e with
       | Some _ => bool_decide (lv = ∅)
       | None => true
       end) && swap_ok (track lv e) t'
  end.

(** What an operation appended to the trace. *)
Definition effects_since (s s' : State) : list Effect :=
  drop (length (trace s)) (trace s').

End Plugin.

(** ** Vocabulary of the statements *)

(** [v] is neither [undefined] nor [null]: its properties can be read. *)
Definition has_props (v : JsVal) : bool :=
  match v with
  | JUndefined | JNull => false
  | _ => true
  end.

(** An effect that neither constructs, connects nor closes a handle. *)
Definition quiet (e : Effect) : Prop :=
  creates e = None /\ closes e = None /\ connects e = None.

(** An effect that neither constructs nor connects a handle. *)
Definition passive (e : Effect) : Prop :=
  creates e = None /\ connects e = None.

Definition is_console (e : Effect) : bool :=
  match e with
  | Console _ _ _ _ => true
  | _ => false
  end.

Definition add_effects (es : list Effect) (s : State) : State :=
  mkState (config s) (rpcClient s) (wsClient s) (heap s) (next_handle s)
          (trace s ++ es).

(** What a listener prints, and what the listeners of an object print for an
    event. *)
Definition listener_log (l : Listener) (arg : JsVal) : Effect :=
  match l with
  | OnRpcReady => Console LvLog Green "Local RPC ready" []
  | OnRpcError => Console LvError Red "Local RPC error" [LogVal arg]
  | OnRpcClose => Console LvWarn Yellow "Local RPC transport closed" []
  | OnLoginFailed => Console LvError Red "Local RPC login failed" [LogVal arg]
  | OnWsOpen agentUrl => Console LvLog Green "Connected to agent at" [LogVal agentUrl]
  | OnWsError => Console LvError Red "WS error" [LogVal arg]
  end.

Definition listeners_log (ls : list (Event * Listener)) (ev : Event) (arg : JsVal)
  : list Effect :=
  map (fun p => listener_log (snd p) arg) (filter (fun p => ev = fst p) ls).

(** The invariant of the runs: the configuration is an object, the handle
    variable of the other mode is empty, every live handle is referenced, no
    handle was constructed while another one was live, and handles are
    fresh. *)
Record Inv (s : State) : Prop := mkInv {
  inv_config : has_props (config s) = true;
  inv_mode : forall m, prop (config s) "mode" = Some m ->
             if is_string m "local" then wsClient s = None else rpcClient s = None;
  inv_live : live (trace s) ⊆ held s;
  inv_swap : swap_ok ∅ (trace s) = true;
  inv_fresh : forall h, h ∈ held s -> h < next_handle s
}.

Definition in_local_mode (s : State) : bool :=
  match prop (config s) "mode" with
  | Some mode => is_string mode "local"
  | None => false
  end.

(** The call by which the transport of the current mode receives an
    activity. *)
Definition transport_send `{Builtins} (s : State) (h : handle) (activity : JsVal)
  : Effect :=
  if in_local_mode s then RpcSetActivity h activity
  else WsSend h (JSON_stringify activity).

(** Whether the transport of the current mode refuses an activity: only
    [setActivity] does, a socket write takes any string. *)
Definition transport_rejects `{Builtins} (s : State) (activity : JsVal) : bool :=
  in_local_mode s && setActivity_rejects activity.

(** The store after [destroy] and [close] on the referenced handles. *)
Definition close_held (rpc ws : option handle) (hp : gmap nat Obj) : gmap nat Obj :=
  from_option (alter (with_status Closed)) id ws
    (from_option (alter (with_status Closed)) id rpc hp).

(** What the settings handler appends to the trace, block by block. *)
Definition save_effects `{Builtins} (write_ok : bool) (cfg : JsVal) : list Effect :=
  if write_ok then
    [FsWrite (JSON_stringify_indent cfg 2);
     Console LvLog Green "config.json updated" []]
  else [Console LvError Red "Failed to write config.json" [LogExn FsError]].

Definition release_effects (rpc ws : option handle) : list Effect :=
  from_option (fun h => [RpcDestroy h]) [] rpc ++
  from_option (fun h => [WsClose h]) [] ws.

Definition init_effects (mode clientId agentUrl : JsVal) (h : handle) : list Effect :=
  if is_string mode "local" then
    [RpcNew h; RpcRegister clientId; RpcLogin h clientId]
  else [WsNew h agentUrl].

(** The library object of a transport built from a configuration, as
    [initLocalRpc] and [initRemoteWs] leave it. *)
Definition new_object (mode clientId agentUrl : JsVal) : Obj :=
  if is_string mode "local" then
    mkObj RpcClientObj Connecting
      [(EvReady, OnRpcReady); (EvError, OnRpcError); (EvClose, OnRpcClose);
       (EvLoginRejected, OnLoginFailed)]
      clientId
  else
    mkObj WebSocketObj Connecting
      [(EvOpen, OnWsOpen agentUrl); (EvError, OnWsError)]
      agentUrl.

(** The three variables of the module. *)
Definition manager (s : State) : JsVal * option handle * option handle :=
  (config s, rpcClient s, wsClient s).

Definition is_settings (op : Op) : bool :=
  match op with
  | OpSettings _ _ => true
  | _ => false
  end.

Definition is_exit (op : Op) : bool :=
  match op with
  | OpExit => true
  | _ => false
  end.

(** A request or a library event that is neither a settings update nor
    [exit]. *)
Definition in_between (op : Op) : bool :=
  negb (is_settings op) && negb (is_exit op).

(** ** Vocabulary of the further properties *)

(** The handle variable that [config.mode] selects. *)
Definition selected (s : State) : option handle :=
  if in_local_mode s then rpcClient s else wsClient s.

(** A transport can be constructed for a configuration when its mode is
    local or the WebSocket constructor accepts its [agentUrl]. *)
Definition constructible `{Builtins} (mode agentUrl : JsVal) : bool :=
  is_string mode "local" || negb (WebSocket_rejects agentUrl).

(** Well-formed states: the invariant of the runs, every object of the store
    was handed out by the allocator, and either the selected variable refers
    to an object that was built from the current configuration and has only
    moved along its lifecycle since, or no transport can be constructed for
    the current configuration and no handle is held. *)
Record Wf `{Builtins} (s : State) : Prop := mkWf {
  wf_inv : Inv s;
  wf_dom : forall h, is_Some (heap s !! h) -> h < next_handle s;
  wf_selected :
    exists m c a,
      prop (config s) "mode" = Some m /\
      prop (config s) "clientId" = Some c /\
      prop (config s) "agentUrl" = Some a /\
      if constructible m a
      then exists h st,
             selected s = Some h /\
             heap s !! h = Some (with_status st (new_object m c a))
      else rpcClient s = None /\ wsClient s = None
}.

(** What the settings handler appends after releasing the old handles when
    the WebSocket constructor refuses the url. *)
Definition refusal_effects (agentUrl : JsVal) : list Effect :=
  [WsRefused agentUrl;
   Console LvError Red "Settings update failed" [LogExn SyntaxError]].

(** The object literal the update handler passes to [sendActivity]; an
    absent field is [undefined]. *)
Definition payload_of (body : JsVal) : JsVal :=
  JObj [("details", default JUndefined (prop body "details"));
        ("state", default JUndefined (prop body "state"));
        ("largeImageKey", default JUndefined (prop body "largeImageKey"));
        ("startTimestamp", default JUndefined (prop body "startTimestamp"))].

(** What the caller of a function gets back: its value, or the exception it
    raised. *)
Definition returned {A} (r : Res A) : A + Exn :=
  match r with
  | Ok a _ => inl a
  | Throw e _ => inr e
  end.

(** A send effect goes to the handle of the current mode, and to a socket
    only when it is open. *)
Definition send_ok (s : State) (e : Effect) : Prop :=
  match e with
  | RpcSetActivity h _ =>
      in_local_mode s = true /\ rpcClient s = Some h
  | WsSend h _ =>
      in_local_mode s = false /\ wsClient s = Some h /\
      status_of s h = Some Ready
  | _ => True
  end.

Definition is_write (e : Effect) : bool :=
  match e with
  | FsWrite _ => true
  | _ => false
  end.

Definition is_route (e : Effect) : bool :=
  match e with
  | RouterPost _ => true
  | _ => false
  end.

(** What [init] appends to the trace when it succeeds. *)
Definition startup_effects (cfg mode clientId agentUrl : JsVal) (h : handle)
  : list Effect :=
  Console LvLog Green "Plugin init, loaded config:" [LogVal cfg] ::
  init_effects mode clientId agentUrl h ++
  [RouterPost "/probe"; RouterPost "/settings"; RouterPost "/update";
   RouterPost "/test"; Console LvLog Green "Plugin loaded!" []].

(** What the listeners registered by [initLocalRpc] and [initRemoteWs] print
    for an event. *)
Definition local_event_log (ev : Event) (arg : JsVal) : list Effect :=
  match ev with
  | EvReady => [Console LvLog Green "Local RPC ready" []]
  | EvError => [Console LvError Red "Local RPC error" [LogVal arg]]
  | EvClose => [Console LvWarn Yellow "Local RPC transport closed" []]
  | EvLoginRejected => [Console LvError Red "Local RPC login failed" [LogVal arg]]
  | EvOpen => []
  end.

Definition remote_event_log (agentUrl : JsVal) (ev : Event) (arg : JsVal)
  : list Effect :=
  match ev with
  | EvOpen => [Console LvLog Green "Connected to agent at" [LogVal agentUrl]]
  | EvError => [Console LvError Red "WS error" [LogVal arg]]
  | _ => []
  end.

(** ** Sample inputs

    A stand-in for the JSON builtins and a few states of a run, used to
    instantiate the statements below. *)

Definition sample_greater (v : JsVal) (n : Z) : bool :=
  match v with
  | JNum k => (n <? k)%Z
  | _ => false
  end.

(** Accepts the strings that start with [ws://] or [wss://]. *)
Definition sample_rejects (url : JsVal) : bool :=
  match url with
  | JStr s => negb (String.prefix "ws://" s || String.prefix "wss://" s)
  | _ => true
  end.

Definition sample_builtins : Builtins :=
  {| JSON_parse := fun raw =>
       if String.eqb raw "{}" then Some (JObj [])
       else if String.eqb raw "null" then Some JNull
       else None;
     JSON_stringify := fun _ => "<json>";
     JSON_stringify_indent := fun _ _ => "<json>";
     js_greater := sample_greater;
     js_greater_number := fun _ _ => eq_refl;
     js_greater_undefined := fun _ => eq_refl;
     WebSocket_rejects := sample_rejects;
     WebSocket_rejects_undefined := eq_refl;
     WebSocket_rejects_empty := eq_refl |}.

(** A remote configuration whose [agentUrl] the constructor refuses. *)
Definition sample_bad_body : JsVal :=
  JObj [("clientId", JStr "abc"); ("mode", JStr "remote"); ("agentUrl", JStr "")].

(** An update whose timestamp is one beyond what [setActivity] accepts. *)
Definition sample_late_body : JsVal :=
  JObj [("details", JStr "D"); ("state", JStr "S"); ("largeImageKey", JStr "K");
        ("startTimestamp", JNum 2147483647001)].

Definition sample_remote_body : JsVal :=
  JObj [("mode", JStr "remote"); ("agentUrl", JStr "ws://agent")].

Definition sample_local_body : JsVal :=
  JObj [("clientId", JStr "abc"); ("mode", JStr "local")].

Definition sample_update_body : JsVal :=
  JObj [("details", JStr "D"); ("state", JStr "S"); ("largeImageKey", JStr "K");
        ("startTimestamp", JNum 1700000000000)].

(** A stand-in whose [JSON.parse] reads back what its [JSON.stringify] with
    indentation wrote for the configuration of [sample_full_body]. *)
Definition sample_full_body : JsVal :=
  JObj [("clientId", JStr "abc"); ("mode", JStr "local"); ("agentUrl", JStr "")].

Definition echo_builtins : Builtins :=
  {| JSON_parse := fun raw =>
       if String.eqb raw "<config>" then Some sample_full_body else None;
     JSON_stringify := fun _ => "<json>";
     JSON_stringify_indent := fun _ _ => "<config>";
     js_greater := sample_greater;
     js_greater_number := fun _ _ => eq_refl;
     js_greater_undefined := fun _ => eq_refl;
     WebSocket_rejects := sample_rejects;
     WebSocket_rejects_undefined := eq_refl;
     WebSocket_rejects_empty := eq_refl |}.

(** After [init] with no configuration file: local mode, client 0 connecting. *)
Definition sample_started : State :=
  state_of (init (H := sample_builtins) (boot (H := sample_builtins) None)).

(** After a settings update to remote mode: socket 1 connecting. *)
Definition sample_remote : State :=
  step (H := sample_builtins) (OpSettings sample_remote_body true) sample_started.

(** After the open event of socket 1. *)
Definition sample_remote_open : State :=
  step (H := sample_builtins) (OpDeliver 1 EvOpen JUndefined) sample_remote.

(** After the ready event of client 0. *)
Definition sample_local_ready : State :=
  step (H := sample_builtins) (OpDeliver 0 EvReady JUndefined) sample_started.

(** After a settings update whose url the constructor refuses: no handle. *)
Definition sample_refused : State :=
  step (H := sample_builtins) (OpSettings sample_bad_body true) sample_started.

#[local] Set Warnings "-clear-no-such-hyp".

Section Properties.
Context `{Builtins}.

Ltac exec :=
  cbv [sendActivity initTransport releaseClients initLocalRpc initRemoteWs
       saveConfig settings_handler settings_failed update_handler update_failed
       test_handler probe_handler init exit deliver step
       new_RPC_Client RPC_register on rpc_login rpc_destroy rpc_setActivity
       new_WebSocket ws_close ws_send ws_is_open alloc update_obj
       console_log console_warn console_error emit get_prop
       bind ret throw try_catch gets modify state_of
       set_config set_rpcClient set_wsClient set_heap set_next_handle add_effect
       config rpcClient wsClient heap next_handle trace].

(** *** Properties of values *)

Lemma prop_has_props v k : has_props v = true -> exists x, prop v k = Some x.
Proof. destruct v; cbn; try discriminate; eauto. Qed.

Lemma prop_Some_has_props v k x : prop v k = Some x -> has_props v = true.
Proof. destruct v; cbn; congruence. Qed.

Lemma prop_None v k : prop v k = None -> has_props v = false.
Proof. destruct v; cbn; congruence. Qed.

Lemma prop_None_any v k k' : prop v k = None -> prop v k' = None.
Proof. destruct v; cbn; congruence. Qed.

(** *** Tracking of live handles along a trace *)

Lemma live_snoc t e : live (t ++ [e]) = track (live t) e.
Proof. unfold live, live_from. by rewrite fold_left_app. Qed.

Lemma live_app t es : live (t ++ es) = live_from (live t) es.
Proof. unfold live, live_from. by rewrite fold_left_app. Qed.

Lemma swap_ok_app lv t1 t2 :
  swap_ok lv (t1 ++ t2) = swap_ok lv t1 && swap_ok (live_from lv t1) t2.
Proof.
  revert lv. induction t1 as [|e t1 IH]; intros lv; cbn; [done|].
  rewrite IH. by rewrite andb_assoc.
Qed.

Lemma swap_ok_snoc t e :
  swap_ok ∅ (t ++ [e]) =
  swap_ok ∅ t && match creates e with
                 | Some _ => bool_decide (live t = ∅)
                 | None => true
                 end.
Proof. rewrite swap_ok_app. cbn. by rewrite andb_true_r. Qed.

Lemma live_app_quiet t es : Forall quiet es -> live (t ++ es) = live t.
Proof.
  intros Hq. unfold live, live_from. rewrite fold_left_app.
  induction Hq as [|e es (Hc & Hd & _) _ IH] in t |- *; cbn; [done|].
  unfold track at 2. rewrite Hc, Hd. apply IH.
Qed.

Lemma prop_cfg_mode c m a :
  prop (JObj [("clientId", c); ("mode", m); ("agentUrl", a)]) "mode" = Some m.
Proof. reflexivity. Qed.
Lemma prop_cfg_clientId c m a :
  prop (JObj [("clientId", c); ("mode", m); ("agentUrl", a)]) "clientId" = Some c.
Proof. reflexivity. Qed.
Lemma prop_cfg_agentUrl c m a :
  prop (JObj [("clientId", c); ("mode", m); ("agentUrl", a)]) "agentUrl" = Some a.
Proof. reflexivity. Qed.

Ltac use_eqs :=
  repeat match goal with
         | E : prop ?v ?k = _ |- context [prop ?v ?k] => rewrite E
         | E : is_string ?v ?k = _ |- context [is_string ?v ?k] => rewrite E
         | E : _ !! _ = _ |- context [_ !! _] => rewrite E
         | E : WebSocket_rejects ?v = _ |- context [WebSocket_rejects ?v] =>
             rewrite E
         | E : setActivity_rejects ?v = _ |- context [setActivity_rejects ?v] =>
             rewrite E
         end.

(** Case split on the outcome of the library check the goal is stuck on. *)
Ltac split_rejects :=
  repeat match goal with
         | |- context [if setActivity_rejects ?a then _ else _] =>
             let E := fresh "Erej" in
             destruct (setActivity_rejects a) eqn:E
         | |- context [if WebSocket_rejects ?a then _ else _] =>
             let E := fresh "Eref" in
             destruct (WebSocket_rejects a) eqn:E
         end.

Ltac norm1 :=
  repeat progress
    (exec; rewrite ?prop_cfg_mode, ?prop_cfg_clientId, ?prop_cfg_agentUrl; use_eqs).

Ltac norm := repeat progress (norm1; split_rejects).

Ltac track_simpl :=
  cbn [trace config rpcClient wsClient heap next_handle] in *;
  rewrite ?swap_ok_snoc, ?live_snoc;
  cbn [track creates closes] in *.

Lemma body_props body c :
  prop body "clientId" = Some c ->
  exists m a, prop body "mode" = Some m /\ prop body "agentUrl" = Some a.
Proof.
  intros Ec. apply prop_Some_has_props in Ec.
  destruct (prop_has_props body "mode" Ec) as [m Em].
  destruct (prop_has_props body "agentUrl" Ec) as [a Ea]. eauto.
Qed.

Lemma Inv_settings body write_ok s :
  Inv s -> Inv (step (OpSettings body write_ok) s).
Proof.
  destruct s as [cfg rpc ws hp n tr]. intros [Hc Hm Hl Hs Hf].
  unfold held in *. cbn [config rpcClient wsClient trace next_handle] in *.
  destruct (prop body "clientId") as [c|] eqn:Ec.
  2:{ norm. split; unfold held; track_simpl; auto. by rewrite Hs. }
  destruct (body_props _ _ Ec) as (m & a & Em & Ea).
  destruct (is_string m "local") eqn:El.
  all: destruct write_ok, rpc as [hr|], ws as [hw|]; norm.
  all: split; unfold held; track_simpl;
     [ reflexivity
     | intros m' [= <-]; rewrite El; reflexivity
     | set_solver
     | rewrite Hs; cbn; repeat (rewrite bool_decide_eq_true_2; [|set_solver]); reflexivity
     | intros h Hh; first [ exfalso; set_solver
                          | assert (h = n) as -> by set_solver; lia ] ].
Qed.

Lemma add_effects_nil s : add_effects [] s = s.
Proof. destruct s. unfold add_effects. cbn. by rewrite app_nil_r. Qed.

Lemma add_effects_cons e es s :
  add_effects (e :: es) s = add_effects es (add_effect e s).
Proof. unfold add_effects, add_effect. cbn. by rewrite <- app_assoc. Qed.

Lemma run_listener_eq l arg s :
  run_listener l arg s = Ok tt (add_effect (listener_log l arg) s).
Proof. by destruct l. Qed.

Lemma run_listeners_eq ls ev arg s :
  run_listeners ls ev arg s = Ok tt (add_effects (listeners_log ls ev arg) s).
Proof.
  revert s. induction ls as [|[ev' l] ls IH]; intros s.
  - cbn. by rewrite add_effects_nil.
  - cbn [run_listeners]. unfold bind, listeners_log.
    rewrite filter_cons. cbn [fst].
    destruct (decide (ev = ev')) as [->|Hne].
    + rewrite bool_decide_eq_true_2 by done. rewrite run_listener_eq, IH.
      cbn [map snd]. by rewrite add_effects_cons.
    + rewrite bool_decide_eq_false_2 by done. cbn. by rewrite IH.
Qed.

Lemma listeners_log_quiet ls ev arg : Forall quiet (listeners_log ls ev arg).
Proof.
  unfold listeners_log. apply Forall_map, Forall_forall.
  intros [ev' l] _. by destruct l.
Qed.

Lemma deliver_eq h ev arg s :
  deliver h ev arg s =
  Ok tt match heap s !! h with
        | None => s
        | Some o =>
            add_effects (listeners_log (obj_listeners o) ev arg)
              (set_heap (alter (with_status (lib_transition ev (obj_status o))) h
                               (heap s)) s)
        end.
Proof.
  unfold deliver, bind, gets. destruct (heap s !! h) as [o|]; [|done].
  unfold update_obj, modify. by rewrite run_listeners_eq.
Qed.

Lemma swap_ok_quiet lv es : Forall quiet es -> swap_ok lv es = true.
Proof.
  intros Hq. induction Hq as [|e es (Hc & Hd & _) _ IH] in lv |- *; cbn; [done|].
  rewrite Hc. cbn. apply IH.
Qed.

Lemma swap_ok_app_quiet t es :
  Forall quiet es -> swap_ok ∅ (t ++ es) = swap_ok ∅ t.
Proof.
  intros Hq. rewrite swap_ok_app, (swap_ok_quiet _ _ Hq). apply andb_true_r.
Qed.

(** An operation that keeps the three variables and only appends effects
    that neither construct nor close a handle keeps the invariant. *)
Lemma Inv_frame s s' (es : list Effect) :
  Inv s ->
  config s' = config s -> rpcClient s' = rpcClient s ->
  wsClient s' = wsClient s -> next_handle s' = next_handle s ->
  trace s' = trace s ++ es -> Forall quiet es ->
  Inv s'.
Proof.
  intros [Hc Hm Hl Hs Hf] Ec Er Ew En Et Hq.
  split; unfold held in *; rewrite ?Ec, ?Er, ?Ew, ?En, ?Et; auto.
  - by rewrite live_app_quiet.
  - by rewrite swap_ok_app_quiet.
Qed.

Ltac frame_solve :=
  eexists; split;
  [ | unfold add_effects; cbn [config rpcClient wsClient heap next_handle trace];
      first [ rewrite <- ?app_assoc; cbn [app]; reflexivity
            | rewrite app_nil_r; reflexivity ] ];
  repeat constructor.

Ltac cases_sendActivity cfg rpc ws hp :=
  let m := fresh "m" in
  let Em := fresh "Em" in
  let El := fresh "El" in
  let h := fresh "h" in
  let o := fresh "o" in
  let Eo := fresh "Eo" in
  let Es := fresh "Es" in
  destruct (prop cfg "mode") as [m|] eqn:Em;
  [ destruct (is_string m "local") eqn:El;
    [ destruct rpc as [h|]
    | destruct ws as [h|];
      [ destruct (hp !! h) as [o|] eqn:Eo;
        [ destruct (obj_status o) eqn:Es | ]
      | ] ]
  | ].

Lemma sendActivity_frame activity s :
  exists es, Forall quiet es /\ state_of (sendActivity activity s) = add_effects es s.
Proof.
  destruct s as [cfg rpc ws hp n tr].
  cases_sendActivity cfg rpc ws hp; norm; try rewrite Es; frame_solve.
Qed.

Lemma update_frame body s :
  exists es, Forall quiet es /\ step (OpUpdate body) s = add_effects es s.
Proof.
  destruct s as [cfg rpc ws hp n tr].
  destruct (prop body "details") as [d|] eqn:Ed.
  2:{ norm. frame_solve. }
  apply prop_Some_has_props in Ed.
  destruct (prop_has_props body "details" Ed) as [d' Ed'].
  destruct (prop_has_props body "state" Ed) as [st Est].
  destruct (prop_has_props body "largeImageKey" Ed) as [k Ek].
  destruct (prop_has_props body "startTimestamp" Ed) as [ts Ets].
  cases_sendActivity cfg rpc ws hp; norm; try rewrite Es; frame_solve.
Qed.

Lemma test_frame now s :
  exists es, Forall quiet es /\ step (OpTest now) s = add_effects es s.
Proof.
  destruct s as [cfg rpc ws hp n tr].
  cases_sendActivity cfg rpc ws hp; norm; try rewrite Es; frame_solve.
Qed.

Lemma add_effects_frame es s :
  config (add_effects es s) = config s /\
  rpcClient (add_effects es s) = rpcClient s /\
  wsClient (add_effects es s) = wsClient s /\
  heap (add_effects es s) = heap s /\
  next_handle (add_effects es s) = next_handle s /\
  trace (add_effects es s) = trace s ++ es.
Proof. by destruct s. Qed.

Lemma Inv_add_effects es s : Inv s -> Forall quiet es -> Inv (add_effects es s).
Proof. intros HI Hq. by eapply (Inv_frame s _ es). Qed.

Lemma Inv_update body s : Inv s -> Inv (step (OpUpdate body) s).
Proof.
  intros HI. destruct (update_frame body s) as (es & Hq & ->).
  by apply Inv_add_effects.
Qed.

Lemma Inv_test now s : Inv s -> Inv (step (OpTest now) s).
Proof.
  intros HI. destruct (test_frame now s) as (es & Hq & ->).
  by apply Inv_add_effects.
Qed.

Lemma Inv_deliver h ev arg s : Inv s -> Inv (step (OpDeliver h ev arg) s).
Proof.
  intros HI. unfold step. rewrite deliver_eq. cbn [state_of].
  destruct (heap s !! h) as [o|]; [|done].
  eapply (Inv_frame s _ (listeners_log (obj_listeners o) ev arg)); try done.
  apply listeners_log_quiet.
Qed.

Lemma Inv_exit s : Inv s -> Inv (step OpExit s).
Proof.
  destruct s as [cfg rpc ws hp n tr]. intros [Hc Hm Hl Hs Hf].
  unfold held in *. cbn [config rpcClient wsClient trace next_handle] in *.
  destruct rpc as [hr|], ws as [hw|]; norm.
  all: split; unfold held; track_simpl;
     [ done | done | set_solver | by rewrite Hs | done ].
Qed.

Lemma Inv_step op s : Inv s -> Inv (step op s).
Proof.
  destruct op.
  - done.
  - apply Inv_settings.
  - apply Inv_update.
  - apply Inv_test.
  - apply Inv_exit.
  - apply Inv_deliver.
Qed.

Lemma run_snoc ops op s : run (ops ++ [op]) s = step op (run ops s).
Proof. unfold run. by rewrite fold_left_app. Qed.

Lemma run_app ops1 ops2 s : run (ops1 ++ ops2) s = run ops2 (run ops1 s).
Proof. unfold run. by rewrite fold_left_app. Qed.

Lemma Inv_run ops s : Inv s -> Inv (run ops s).
Proof.
  revert s. induction ops as [|op ops IH]; intros s HI; [done|].
  cbn. apply IH. by apply Inv_step.
Qed.

Lemma loadConfig_trace file :
  snd (loadConfig file) = [] \/
  snd (loadConfig file) =
    [Console LvWarn Yellow "config.json not found or invalid, using defaults." []].
Proof.
  unfold loadConfig. destruct file as [raw|]; [|by right].
  destruct (JSON_parse raw); [by left | by right].
Qed.

Lemma Inv_init file s0 : init (boot file) = Ok tt s0 -> Inv s0.
Proof.
  unfold boot. destruct (loadConfig file) as [cfg tr0] eqn:E.
  pose proof (loadConfig_trace file) as Htr. rewrite E in Htr. cbn [fst snd] in *.
  destruct (prop cfg "mode") as [m|] eqn:Em.
  2:{ norm. discriminate. }
  pose proof (prop_Some_has_props _ _ _ Em) as Hc.
  destruct (prop_has_props cfg "clientId" Hc) as [c Ec].
  destruct (prop_has_props cfg "agentUrl" Hc) as [a Ea].
  destruct (is_string m "local") eqn:El; norm; intros [= <-].
  all: split; unfold held; track_simpl;
    [ done
    | intros m' Hm'; assert (m' = m) as -> by congruence; by rewrite El
    | destruct Htr as [-> | ->]; cbn; set_solver
    | destruct Htr as [-> | ->]; reflexivity
    | intros h Hh; assert (h = 0) as -> by set_solver; lia ].
Qed.

Lemma Reachable_Inv s : Reachable s -> Inv s.
Proof.
  intros (file & s0 & ops & Hinit & ->). apply Inv_run. by eapply Inv_init.
Qed.

(** *** Dispatch *)

Lemma sendActivity_local_absent activity s m :
  prop (config s) "mode" = Some m -> is_string m "local" = true ->
  rpcClient s = None ->
  sendActivity activity s =
  Ok tt (add_effect (Console LvError Red "RPC client not initialized" []) s).
Proof.
  destruct s as [cfg rpc ws hp n tr]. cbn [config rpcClient].
  intros Em El ->. by norm.
Qed.

Lemma sendActivity_local_present activity s m h :
  prop (config s) "mode" = Some m -> is_string m "local" = true ->
  rpcClient s = Some h ->
  sendActivity activity s =
  (if setActivity_rejects activity then Throw RangeError else Ok tt)
    (add_effect (RpcSetActivity h activity) s).
Proof.
  destruct s as [cfg rpc ws hp n tr]. cbn [config rpcClient].
  intros Em El ->. norm; reflexivity.
Qed.

Lemma sendActivity_remote_closed activity s m :
  prop (config s) "mode" = Some m -> is_string m "local" = false ->
  (wsClient s = None \/
   exists h, wsClient s = Some h /\ status_of s h <> Some Ready) ->
  sendActivity activity s =
  Ok tt (add_effect (Console LvError Red "WebSocket client not connected" []) s).
Proof.
  destruct s as [cfg rpc ws hp n tr]. unfold status_of. cbn [config wsClient heap].
  intros Em El [-> | (h & -> & Hst)]; [by norm|].
  destruct (hp !! h) as [o|] eqn:Eo; [|by norm].
  destruct (obj_status o) eqn:Es; norm; rewrite Es; try reflexivity.
  exfalso. apply Hst. cbn. by rewrite Es.
Qed.

Lemma sendActivity_remote_open activity s m h :
  prop (config s) "mode" = Some m -> is_string m "local" = false ->
  wsClient s = Some h -> status_of s h = Some Ready ->
  sendActivity activity s =
  Ok tt (add_effect (WsSend h (JSON_stringify activity)) s).
Proof.
  destruct s as [cfg rpc ws hp n tr]. unfold status_of. cbn [config wsClient heap].
  intros Em El -> Hst.
  destruct (hp !! h) as [o|] eqn:Eo; [|discriminate].
  cbn in Hst. injection Hst as Hst. norm. by rewrite Hst.
Qed.

Lemma active_handle_Some s h :
  active_handle s = Some h ->
  exists m, prop (config s) "mode" = Some m /\
            status_of s h = Some Ready /\
            (if is_string m "local" then rpcClient s = Some h
             else wsClient s = Some h).
Proof.
  unfold active_handle. destruct (prop (config s) "mode") as [m|]; [|done].
  intros Ha. exists m. split; [done|].
  destruct (is_string m "local");
    [destruct (rpcClient s) as [h'|] | destruct (wsClient s) as [h'|]];
    try done;
    destruct (status_of s h') as [[]|] eqn:Es; try done;
    injection Ha as ->; done.
Qed.


Lemma dummy_rejected now :
  (unix_limit < now)%Z -> setActivity_rejects (dummy now) = true.
Proof.
  intros Hn. unfold setActivity_rejects, dummy. cbn.
  rewrite js_greater_number. apply orb_true_iff. left.
  apply Z.ltb_lt. exact Hn.
Qed.

(** C5, the part of the claim that holds: in remote mode, a dispatch while
    the socket is absent or not open prints the error 'WebSocket client not
    connected' and writes nothing to the socket; apart from that line the
    state is unchanged.  The call returns normally, with [undefined], and the
    update endpoint answers 204 all the same. *)
Theorem C5_remote_dispatch_before_open (s : State) (activity : JsVal) :
  prop (config s) "mode" = Some (JStr "remote") ->
  (wsClient s = None \/
   exists h, wsClient s = Some h /\ status_of s h <> Some Ready) ->
  sendActivity activity s =
    Ok tt (add_effect (Console LvError Red "WebSocket client not connected" []) s) /\
  filter sends (effects_since s (state_of (sendActivity activity s))) = [] /\
  (forall body, has_props body = true ->
     update_handler body s =
       Ok (SendStatus 204)
          (add_effect (Console LvError Red "WebSocket client not connected" [])
             (add_effect (Console LvLog Blue "/update payload:" [LogVal body]) s))).
Proof.
  intros Em Hws.
  rewrite (sendActivity_remote_closed activity s (JStr "remote") Em eq_refl Hws).
  split; [done|]. split.
  - unfold effects_since. cbn [state_of]. destruct s as [cfg rpc ws hp n tr].
    cbn [trace add_effect]. by rewrite drop_app_length.
  - intros body Hb.
    destruct (prop_has_props body "details" Hb) as [d Ed].
    destruct (prop_has_props body "state" Hb) as [st Est].
    destruct (prop_has_props body "largeImageKey" Hb) as [k Ek].
    destruct (prop_has_props body "startTimestamp" Hb) as [ts Ets].
    unfold update_handler, try_catch, bind, console_log, emit, modify, get_prop.
    rewrite Ed, Est, Ek, Ets. unfold ret at 1 2 3 4.
    rewrite (sendActivity_remote_closed _ _ (JStr "remote")); [done..|].
    destruct s as [cfg rpc ws hp n tr]. exact Hws.
Qed.

(** C1, at the input where it fails: right after [init] with the default
    configuration the mode is local and the RPC client exists but is still
    connecting, so no handle is [Ready]; [sendActivity] nevertheless calls
    [setActivity] on the client and prints no error.  The call returns
    normally unless the library raises its [RangeError]. *)
Theorem C1_local_dispatch_before_ready (activity : JsVal) :
  let s := state_of (init (boot None)) in
  prop (config s) "mode" = Some (JStr "local") /\
  rpcClient s = Some 0 /\
  status_of s 0 = Some Connecting /\
  active_handle s = None /\
  sendActivity activity s =
    (if setActivity_rejects activity then Throw RangeError else Ok tt)
      (add_effect (RpcSetActivity 0 activity) s) /\
  filter sends (effects_since s (state_of (sendActivity activity s))) =
    [RpcSetActivity 0 activity].
Proof.
  cbn zeta.
  assert (Hs : sendActivity activity (state_of (init (boot None))) =
               (if setActivity_rejects activity then Throw RangeError else Ok tt)
                 (add_effect (RpcSetActivity 0 activity)
                    (state_of (init (boot None))))).
  { apply (sendActivity_local_present activity _ (JStr "local") 0);
      vm_compute; reflexivity. }
  split; [vm_compute; reflexivity|].
  split; [vm_compute; reflexivity|].
  split; [vm_compute; reflexivity|].
  split; [vm_compute; reflexivity|].
  split; [exact Hs|].
  rewrite Hs. destruct (setActivity_rejects activity); vm_compute; reflexivity.
Qed.

(** C9: when reading or parsing the configuration file fails, [loadConfig]
    returns the default configuration (empty clientId, mode local, empty
    agentUrl) after a warning; when both succeed it returns the parsed
    contents.  It is a total function: no failure escapes it. *)
Theorem C9_loadConfig_fallback (file : option string) :
  (file = None \/ (exists raw, file = Some raw /\ JSON_parse raw = None) ->
   loadConfig file =
     (JObj [("clientId", JStr ""); ("mode", JStr "local"); ("agentUrl", JStr "")],
      [Console LvWarn Yellow "config.json not found or invalid, using defaults." []])) /\
  (forall raw parsed, file = Some raw -> JSON_parse raw = Some parsed ->
   loadConfig file = (parsed, [])).
Proof.
  split.
  - intros [-> | (raw & -> & Hp)]; unfold loadConfig; [done | by rewrite Hp].
  - intros raw parsed -> Hp. unfold loadConfig. by rewrite Hp.
Qed.


(** C4: while the transport of the current mode is [Ready], [sendActivity]
    hands its argument over unchanged, to [setActivity] in local mode and as
    [JSON.stringify] of it to the socket in remote mode; the update endpoint
    builds that argument from the four fields [details], [state],
    [largeImageKey] and [startTimestamp] of the request body, each as it is in
    the body.  This is the only send of the request.  When [setActivity]
    raises its [RangeError] on the object it was handed, [sendActivity]
    raises it too and the update endpoint answers 500 after an error line;
    in every other case the answer is 204. *)
Theorem C4_payload_unmodified
  (s : State) (h : handle) (body details state largeImageKey startTimestamp : JsVal) :
  active_handle s = Some h ->
  prop body "details" = Some details ->
  prop body "state" = Some state ->
  prop body "largeImageKey" = Some largeImageKey ->
  prop body "startTimestamp" = Some startTimestamp ->
  let payload :=
    JObj [("details", details); ("state", state);
          ("largeImageKey", largeImageKey); ("startTimestamp", startTimestamp)] in
  let handed :=
    add_effect (transport_send s h payload)
      (add_effect (Console LvLog Blue "/update payload:" [LogVal body]) s) in
  (forall activity,
     sendActivity activity s =
       (if transport_rejects s activity then Throw RangeError else Ok tt)
         (add_effect (transport_send s h activity) s)) /\
  update_handler body s =
    (if transport_rejects s payload
     then Ok (StatusSend 500 "Internal Server Error")
             (add_effect (Console LvError Red "/update error" [LogExn RangeError])
                handed)
     else Ok (SendStatus 204) handed) /\
  filter sends (effects_since s (state_of (update_handler body s))) =
    [transport_send s h payload] /\
  prop payload "details" = Some details /\
  prop payload "state" = Some state /\
  prop payload "largeImageKey" = Some largeImageKey /\
  prop payload "startTimestamp" = Some startTimestamp.
Proof.
  intros Ha Ed Est Ek Ets payload handed.
  destruct (active_handle_Some s h Ha) as (m & Em & Hst & Hh).
  assert (Hsend : forall activity s',
            s' = s \/
            s' = add_effect (Console LvLog Blue "/update payload:" [LogVal body]) s ->
            sendActivity activity s' =
              (if transport_rejects s activity then Throw RangeError else Ok tt)
                (add_effect (transport_send s h activity) s')).
  { intros activity s' Hs'. unfold transport_rejects, transport_send, in_local_mode.
    rewrite Em. destruct (is_string m "local") eqn:El; cbn [andb].
    - apply (sendActivity_local_present activity s' m h); auto;
        by destruct Hs' as [-> | ->].
    - apply (sendActivity_remote_open activity s' m h); auto;
        by destruct Hs' as [-> | ->]. }
  assert (Hup : update_handler body s =
    (if transport_rejects s payload
     then Ok (StatusSend 500 "Internal Server Error")
             (add_effect (Console LvError Red "/update error" [LogExn RangeError])
                handed)
     else Ok (SendStatus 204) handed)).
  { unfold update_handler, try_catch, bind, console_log, emit, modify, get_prop.
    rewrite Ed, Est, Ek, Ets. unfold ret at 1 2 3 4.
    rewrite Hsend by (by right).
    unfold update_failed, console_error, emit, modify, bind, ret.
    unfold handed, payload. by destruct (transport_rejects s _). }
  split; [intros activity; apply Hsend; by left|].
  split; [exact Hup|].
  split; [|done].
  rewrite Hup. unfold handed, effects_since.
  destruct (transport_rejects s payload); unfold transport_send;
    destruct (in_local_mode s); destruct s as [cfg rpc ws hp n tr];
    cbn [state_of add_effect trace config rpcClient wsClient heap next_handle];
    rewrite <- ?app_assoc, drop_app_length; vm_compute; reflexivity.
Qed.
(** *** Teardown *)

Lemma lookup_close (h i : handle) (hp : gmap nat Obj) :
  alter (with_status Closed) h hp !! i =
  if decide (h = i) then with_status Closed <$> hp !! i else hp !! i.
Proof. rewrite lookup_alter. by case_decide; subst. Qed.

Lemma close_held_idem rpc ws hp :
  close_held rpc ws (close_held rpc ws hp) = close_held rpc ws hp.
Proof.
  apply map_eq. intros i. unfold close_held.
  destruct rpc as [hr|], ws as [hw|]; cbn [from_option id];
    rewrite ?lookup_close; repeat case_decide; try done;
    by destruct (hp !! i).
Qed.

Lemma close_held_closed rpc ws hp h o :
  rpc = Some h \/ ws = Some h ->
  close_held rpc ws hp !! h = Some o -> obj_status o = Closed.
Proof.
  unfold close_held. intros Hh Ho.
  destruct rpc as [hr|], ws as [hw|]; cbn [from_option id] in Ho;
    rewrite ?lookup_close in Ho; repeat case_decide;
    try (destruct Hh; congruence);
    destruct (hp !! h) as [o'|]; cbn in Ho; try discriminate;
    injection Ho as <-; reflexivity.
Qed.

Lemma lookup_close_held rpc ws (hp : gmap nat Obj) h :
  close_held rpc ws hp !! h =
  if bool_decide (rpc = Some h \/ ws = Some h)
  then with_status Closed <$> hp !! h else hp !! h.
Proof.
  unfold close_held.
  destruct rpc as [hr|], ws as [hw|]; cbn [from_option id];
    rewrite ?lookup_close; repeat case_decide; case_bool_decide;
    try done; try (exfalso; naive_solver);
    destruct (hp !! h) as [[]|]; done.
Qed.

Lemma held_iff s h : h ∈ held s <-> rpcClient s = Some h \/ wsClient s = Some h.
Proof.
  unfold held. destruct (rpcClient s) as [hr|], (wsClient s) as [hw|];
    split; intros Hh; try set_solver;
    destruct Hh as [[= ->] | [= ->]]; set_solver.
Qed.

Lemma exit_eq s :
  exit s =
  Ok tt (mkState (config s) (rpcClient s) (wsClient s)
           (close_held (rpcClient s) (wsClient s) (heap s))
           (next_handle s)
           (trace s ++ Console LvLog Yellow "Plugin exited" [] ::
              release_effects (rpcClient s) (wsClient s))).
Proof.
  destruct s as [cfg rpc ws hp n tr]. unfold close_held, release_effects.
  destruct rpc as [hr|], ws as [hw|]; norm;
    cbn [from_option id app]; rewrite <- ?app_assoc; reflexivity.
Qed.

Lemma no_active_after_close cfg rpc ws hp n tr :
  active_handle (mkState cfg rpc ws (close_held rpc ws hp) n tr) = None.
Proof.
  unfold active_handle, status_of. cbn [config rpcClient wsClient heap].
  destruct (prop cfg "mode") as [m|]; [|done].
  destruct (is_string m "local").
  - destruct rpc as [h|]; [|done].
    destruct (close_held (Some h) ws hp !! h) as [o|] eqn:Eo; [|done].
    cbn. by rewrite (close_held_closed (Some h) ws hp h o) by auto.
  - destruct ws as [h|]; [|done].
    destruct (close_held rpc (Some h) hp !! h) as [o|] eqn:Eo; [|done].
    cbn. by rewrite (close_held_closed rpc (Some h) hp h o) by auto.
Qed.

(** C7: [exit] returns normally in every state, also when no handle is held
    or the held handle is closed already.  The first call prints its line
    and calls [destroy] and [close] on the handles the variables refer to:
    every object they refer to is [Closed] afterwards, the other objects and
    the three variables are as before, none of the held handles is live and
    no handle is active.  The second call repeats the same calls and changes
    neither the three variables nor any library object, so the same holds
    after it. *)
Theorem C7_exit_idempotent (s : State) :
  exists s1 s2,
    exit s = Ok tt s1 /\ exit s1 = Ok tt s2 /\
    manager s1 = manager s /\
    effects_since s s1 =
      Console LvLog Yellow "Plugin exited" [] ::
      release_effects (rpcClient s) (wsClient s) /\
    (forall h, h ∈ held s -> is_Some (heap s !! h) ->
               status_of s1 h = Some Closed) /\
    (forall h, h ∉ held s -> heap s1 !! h = heap s !! h) /\
    manager s2 = manager s1 /\
    heap s2 = heap s1 /\
    next_handle s2 = next_handle s1 /\
    effects_since s1 s2 = effects_since s s1 /\
    (forall h o, h ∈ held s1 -> heap s1 !! h = Some o -> obj_status o = Closed) /\
    (forall h, h ∈ held s1 -> h ∉ live (trace s1)) /\
    (forall h, h ∈ held s2 -> h ∉ live (trace s2)) /\
    active_handle s1 = None /\
    active_handle s2 = None.
Proof.
  do 2 eexists. split; [apply exit_eq|]. split; [apply exit_eq|].
  split; [by destruct s|].
  split; [unfold effects_since; cbn [trace]; by rewrite drop_app_length|].
  split.
  { intros h Hh [o Ho]. apply held_iff in Hh. unfold status_of. cbn [heap].
    rewrite lookup_close_held, bool_decide_eq_true_2 by done. by rewrite Ho. }
  split.
  { intros h Hh. cbn [heap]. rewrite lookup_close_held.
    rewrite bool_decide_eq_false_2; [done|]. by rewrite <- held_iff. }
  destruct s as [cfg rpc ws hp n tr].
  cbn [config rpcClient wsClient heap next_handle trace].
  rewrite close_held_idem. unfold manager, effects_since.
  cbn [config rpcClient wsClient heap next_handle trace].
  split; [done|]. split; [done|]. split; [done|].
  split; [by rewrite !drop_app_length|].
  split; [|split; [|split; [|split; apply no_active_after_close]]].
  - intros h o Hh. apply close_held_closed.
    unfold held in Hh. cbn [rpcClient wsClient] in Hh.
    destruct rpc as [hr|], ws as [hw|]; set_solver.
  - intros h. unfold held, release_effects. cbn [rpcClient wsClient trace].
    rewrite live_app.
    destruct rpc as [hr|], ws as [hw|];
      cbn [from_option app live_from fold_left track creates closes];
      set_solver.
  - intros h. unfold held, release_effects. cbn [rpcClient wsClient trace].
    rewrite !live_app.
    destruct rpc as [hr|], ws as [hw|];
      cbn [from_option app live_from fold_left track creates closes];
      set_solver.
Qed.

(** *** The state after [init] and after a settings update *)

Lemma with_status_new_object m c a :
  with_status Connecting (new_object m c a) = new_object m c a.
Proof. unfold new_object. by destruct (is_string m "local"). Qed.

Lemma with_status_twice st st' o :
  with_status st' (with_status st o) = with_status st' o.
Proof. by destruct o. Qed.

Lemma with_status_same o : with_status (obj_status o) o = o.
Proof. by destruct o. Qed.

Lemma constructible_cases m a :
  constructible m a = true ->
  is_string m "local" = true \/
  (is_string m "local" = false /\ WebSocket_rejects a = false).
Proof.
  unfold constructible. destruct (is_string m "local"); [by left|].
  cbn. intros Hr. right. split; [done|]. by apply negb_true_iff.
Qed.

Lemma not_constructible m a :
  constructible m a = false ->
  is_string m "local" = false /\ WebSocket_rejects a = true.
Proof.
  unfold constructible. destruct (is_string m "local"); [done|].
  cbn. intros Hr. split; [done|]. by apply negb_false_iff.
Qed.

Lemma settings_rejected body write_ok s :
  prop body "clientId" = None ->
  settings_handler body write_ok s =
  Ok (StatusSend 500 "Internal Server Error")
     (add_effect (Console LvError Red "Settings update failed" [LogExn TypeError]) s).
Proof. destruct s as [cfg rpc ws hp n tr]. intros Ec. by norm. Qed.

Lemma settings_eq body write_ok s c m a :
  prop body "clientId" = Some c ->
  prop body "mode" = Some m ->
  prop body "agentUrl" = Some a ->
  constructible m a = true ->
  settings_handler body write_ok s =
  Ok (SendStatus 204)
     (mkState (JObj [("clientId", c); ("mode", m); ("agentUrl", a)])
        (if is_string m "local" then Some (next_handle s) else None)
        (if is_string m "local" then None else Some (next_handle s))
        (<[next_handle s := new_object m c a]>
           (close_held (rpcClient s) (wsClient s) (heap s)))
        (S (next_handle s))
        (trace s ++
         save_effects write_ok (JObj [("clientId", c); ("mode", m); ("agentUrl", a)]) ++
         release_effects (rpcClient s) (wsClient s) ++
         init_effects m c a (next_handle s))).
Proof.
  destruct s as [cfg rpc ws hp n tr]. intros Ec Em Ea Hk.
  unfold new_object, init_effects, save_effects, release_effects, close_held.
  cbn [config rpcClient wsClient heap next_handle trace].
  destruct (constructible_cases m a Hk) as [El | [El Ew]].
  all: destruct write_ok, rpc as [hr|], ws as [hw|]; norm1;
    cbn [from_option id app]; rewrite <- ?app_assoc; cbn [app];
    rewrite ?alter_insert_eq;
    cbn [with_listener with_status with_target obj_kind obj_status
         obj_listeners obj_target app];
    reflexivity.
Qed.

(** The url is refused: the configuration is replaced and saved and the old
    handles are released before the constructor raises, so the handler
    answers 500 with no handle held. *)
Lemma settings_refused body write_ok s c m a :
  prop body "clientId" = Some c ->
  prop body "mode" = Some m ->
  prop body "agentUrl" = Some a ->
  constructible m a = false ->
  settings_handler body write_ok s =
  Ok (StatusSend 500 "Internal Server Error")
     (mkState (JObj [("clientId", c); ("mode", m); ("agentUrl", a)])
        None None
        (close_held (rpcClient s) (wsClient s) (heap s))
        (next_handle s)
        (trace s ++
         save_effects write_ok (JObj [("clientId", c); ("mode", m); ("agentUrl", a)]) ++
         release_effects (rpcClient s) (wsClient s) ++
         refusal_effects a)).
Proof.
  destruct s as [cfg rpc ws hp n tr]. intros Ec Em Ea Hk.
  unfold refusal_effects, save_effects, release_effects, close_held.
  cbn [config rpcClient wsClient heap next_handle trace].
  destruct (not_constructible m a Hk) as [El Ew].
  destruct write_ok, rpc as [hr|], ws as [hw|]; norm1;
    cbn [from_option id app]; rewrite <- ?app_assoc; cbn [app];
    reflexivity.
Qed.

Lemma settings_spec body write_ok s c m a :
  prop body "clientId" = Some c ->
  prop body "mode" = Some m ->
  prop body "agentUrl" = Some a ->
  constructible m a = true ->
  exists s1,
    settings_handler body write_ok s = Ok (SendStatus 204) s1 /\
    config s1 = JObj [("clientId", c); ("mode", m); ("agentUrl", a)] /\
    next_handle s1 = S (next_handle s) /\
    rpcClient s1 = (if is_string m "local" then Some (next_handle s) else None) /\
    wsClient s1 = (if is_string m "local" then None else Some (next_handle s)) /\
    heap s1 !! next_handle s = Some (new_object m c a) /\
    trace s1 =
      trace s ++ save_effects write_ok (JObj [("clientId", c); ("mode", m); ("agentUrl", a)])
              ++ release_effects (rpcClient s) (wsClient s)
              ++ init_effects m c a (next_handle s).
Proof.
  intros Ec Em Ea Hk. eexists. split; [by apply settings_eq|].
  cbn [config rpcClient wsClient heap next_handle trace].
  rewrite lookup_insert_eq. done.
Qed.

Lemma init_eq s m c a :
  prop (config s) "mode" = Some m ->
  prop (config s) "clientId" = Some c ->
  prop (config s) "agentUrl" = Some a ->
  constructible m a = true ->
  init s =
  Ok tt
     (mkState (config s)
        (if is_string m "local" then Some (next_handle s) else rpcClient s)
        (if is_string m "local" then wsClient s else Some (next_handle s))
        (<[next_handle s := new_object m c a]> (heap s))
        (S (next_handle s))
        (trace s ++ startup_effects (config s) m c a (next_handle s))).
Proof.
  destruct s as [cfg rpc ws hp n tr]. intros Em Ec Ea Hk.
  unfold new_object, startup_effects, init_effects.
  cbn [config rpcClient wsClient heap next_handle trace] in *.
  destruct (constructible_cases m a Hk) as [El | [El Ew]]; norm1;
    rewrite <- ?app_assoc; cbn [app];
    rewrite ?alter_insert_eq;
    cbn [with_listener with_status with_target obj_kind obj_status
         obj_listeners obj_target app];
    reflexivity.
Qed.

Lemma init_throws s :
  has_props (config s) = false ->
  init s =
  Throw TypeError
    (add_effect (Console LvLog Green "Plugin init, loaded config:" [LogVal (config s)]) s).
Proof.
  destruct s as [cfg rpc ws hp n tr]. cbn [config]. intros Hc.
  assert (prop cfg "mode" = None) as Em by (destruct cfg; cbn in *; congruence).
  by norm.
Qed.

(** The url of the loaded configuration is refused: [init] raises the
    [SyntaxError] of the constructor after its first line; no route is
    registered and no handle exists. *)
Lemma init_refused s m a :
  prop (config s) "mode" = Some m ->
  prop (config s) "agentUrl" = Some a ->
  constructible m a = false ->
  init s =
  Throw SyntaxError
    (add_effect (WsRefused a)
       (add_effect
          (Console LvLog Green "Plugin init, loaded config:" [LogVal (config s)]) s)).
Proof.
  destruct s as [cfg rpc ws hp n tr]. cbn [config]. intros Em Ea Hk.
  destruct (not_constructible m a Hk) as [El Ew]. by norm1.
Qed.
(** *** Operations other than a settings update *)

Lemma quiet_passive e : quiet e -> passive e.
Proof. intros (Hc & _ & Hn). by split. Qed.

Lemma step_quiet op s :
  in_between op = true ->
  manager (step op s) = manager s /\
  next_handle (step op s) = next_handle s /\
  exists es, trace (step op s) = trace s ++ es /\ Forall quiet es.
Proof.
  intros Hop. destruct op as [|body w|body|now| |h ev arg]; try discriminate.
  - repeat split; try done. exists []. by rewrite app_nil_r.
  - destruct (update_frame body s) as (es & Hq & ->).
    destruct s. repeat split; try done. by exists es.
  - destruct (test_frame now s) as (es & Hq & ->).
    destruct s. repeat split; try done. by exists es.
  - unfold step. rewrite deliver_eq. cbn [state_of].
    destruct (heap s !! h) as [o|].
    + destruct s. repeat split; try done. eexists. split; [reflexivity|].
      apply listeners_log_quiet.
    + repeat split; try done. exists []. by rewrite app_nil_r.
Qed.

Lemma run_quiet ops s :
  forallb in_between ops = true ->
  manager (run ops s) = manager s /\
  next_handle (run ops s) = next_handle s /\
  exists es, trace (run ops s) = trace s ++ es /\ Forall quiet es.
Proof.
  revert s. induction ops as [|op ops IH]; intros s Hops.
  - repeat split; try done. exists []. by rewrite app_nil_r.
  - cbn in Hops. apply andb_true_iff in Hops as [Hop Hops].
    destruct (step_quiet op s Hop) as (Hm & Hn & es1 & Ht & Hp).
    destruct (IH (step op s) Hops) as (Hm' & Hn' & es2 & Ht' & Hp').
    cbn [run fold_left]. fold (run ops (step op s)).
    rewrite Hm', Hn', Ht', Ht, Hm, Hn. repeat split; try done.
    exists (es1 ++ es2). split; [by rewrite app_assoc|].
    by apply Forall_app.
Qed.

Lemma step_passive op s :
  is_settings op = false ->
  manager (step op s) = manager s /\
  next_handle (step op s) = next_handle s /\
  exists es, trace (step op s) = trace s ++ es /\ Forall passive es.
Proof.
  intros Hop. destruct (is_exit op) eqn:Hex.
  - destruct op; try discriminate.
    unfold step. rewrite exit_eq. cbn [state_of]. unfold manager, release_effects.
    cbn [config rpcClient wsClient next_handle trace].
    repeat split; try done. eexists. split; [reflexivity|].
    constructor; [by split|].
    destruct (rpcClient s), (wsClient s); cbn; repeat constructor.
  - destruct (step_quiet op s) as (Hm & Hn & es & Ht & Hq).
    { unfold in_between. by rewrite Hop, Hex. }
    repeat split; try done. exists es. split; [done|].
    eapply Forall_impl; [exact Hq | apply quiet_passive].
Qed.

Lemma run_passive ops s :
  forallb (fun op => negb (is_settings op)) ops = true ->
  manager (run ops s) = manager s /\
  next_handle (run ops s) = next_handle s /\
  exists es, trace (run ops s) = trace s ++ es /\ Forall passive es.
Proof.
  revert s. induction ops as [|op ops IH]; intros s Hops.
  - repeat split; try done. exists []. by rewrite app_nil_r.
  - cbn in Hops. apply andb_true_iff in Hops as [Hop Hops].
    apply negb_true_iff in Hop.
    destruct (step_passive op s Hop) as (Hm & Hn & es1 & Ht & Hp).
    destruct (IH (step op s) Hops) as (Hm' & Hn' & es2 & Ht' & Hp').
    cbn [run fold_left]. fold (run ops (step op s)).
    rewrite Hm', Hn', Ht', Ht, Hm, Hn. repeat split; try done.
    exists (es1 ++ es2). split; [by rewrite app_assoc|].
    by apply Forall_app.
Qed.

Lemma lib_transition_closed ev : lib_transition ev Closed = Closed.
Proof. by destruct ev. Qed.

Lemma closed_step op s h :
  is_settings op = false ->
  status_of s h = Some Closed -> status_of (step op s) h = Some Closed.
Proof.
  intros Hop. destruct op as [|body w|body|now| |h' ev arg]; try discriminate.
  - done.
  - destruct (update_frame body s) as (es & _ & ->). by destruct s.
  - destruct (test_frame now s) as (es & _ & ->). by destruct s.
  - unfold step. rewrite exit_eq. cbn [state_of]. unfold status_of, close_held.
    cbn [heap]. intros Hst.
    destruct (rpcClient s), (wsClient s); cbn [from_option id];
      rewrite ?lookup_close; repeat case_decide; try done;
      destruct (heap s !! h); cbn in *; congruence.
  - unfold step. rewrite deliver_eq. cbn [state_of]. unfold status_of.
    destruct (heap s !! h') as [o|] eqn:Eo; [|done].
    destruct s as [cfg rpc ws hp n tr]. cbn [heap add_effects set_heap] in *.
    rewrite lookup_alter. case_decide as Hh; [subst h'|done].
    rewrite Eo. cbn. intros [= ->]. by rewrite lib_transition_closed.
Qed.

Lemma closed_run ops s h :
  forallb (fun op => negb (is_settings op)) ops = true ->
  status_of s h = Some Closed -> status_of (run ops s) h = Some Closed.
Proof.
  revert s. induction ops as [|op ops IH]; intros s Hops Hst; [done|].
  cbn in Hops. apply andb_true_iff in Hops as [Hop Hops].
  apply negb_true_iff in Hop. cbn [run fold_left]. fold (run ops (step op s)).
  apply IH; [done|]. by apply closed_step.
Qed.

Lemma held_manager s s' : manager s' = manager s -> held s' = held s.
Proof. unfold manager, held. by intros [= _ -> ->]. Qed.

(** Both outcomes of a settings update whose body has properties. *)
Lemma settings_outcome body write_ok s c m a :
  prop body "clientId" = Some c ->
  prop body "mode" = Some m ->
  prop body "agentUrl" = Some a ->
  exists s1,
    settings_handler body write_ok s =
      Ok (if constructible m a then SendStatus 204
          else StatusSend 500 "Internal Server Error") s1 /\
    config s1 = JObj [("clientId", c); ("mode", m); ("agentUrl", a)] /\
    rpcClient s1 =
      (if constructible m a && is_string m "local"
       then Some (next_handle s) else None) /\
    wsClient s1 =
      (if constructible m a && negb (is_string m "local")
       then Some (next_handle s) else None) /\
    (forall h, h < next_handle s ->
       heap s1 !! h = close_held (rpcClient s) (wsClient s) (heap s) !! h).
Proof.
  intros Ec Em Ea. destruct (constructible m a) eqn:Hk.
  - eexists. split; [by apply settings_eq|].
    cbn [config rpcClient wsClient heap next_handle trace andb].
    split; [done|]. split; [by destruct (is_string m "local")|].
    split; [by destruct (is_string m "local")|].
    intros h Hh. rewrite lookup_insert_ne by lia. done.
  - eexists. split; [by apply settings_refused|].
    cbn [config rpcClient wsClient heap next_handle trace andb]. done.
Qed.

(** C8: a settings update whose body has properties replaces the whole
    configuration by the three fields of the body, each as the body has it
    ([undefined] when absent), whatever the old configuration was, and closes
    the handles held before.  It answers 204 with a new handle when a
    transport can be constructed for the new configuration, and 500 with no
    handle when the WebSocket constructor refuses the url; the configuration
    is replaced in both cases.  Afterwards, as long as no other settings
    update is served, no request, library event or [exit] changes the three
    variables or constructs or connects a handle: a handle held before the
    update stays closed and is never held again, once the new handle is
    closed (its connection failed) no handle is active, and when no handle
    was constructed no handle is ever active. *)
Theorem C8_replace_no_rollback
  (s : State) (body clientId mode agentUrl : JsVal) (write_ok : bool) :
  Reachable s ->
  prop body "clientId" = Some clientId ->
  prop body "mode" = Some mode ->
  prop body "agentUrl" = Some agentUrl ->
  exists s1,
    settings_handler body write_ok s =
      Ok (if constructible mode agentUrl then SendStatus 204
          else StatusSend 500 "Internal Server Error") s1 /\
    config s1 =
      JObj [("clientId", clientId); ("mode", mode); ("agentUrl", agentUrl)] /\
    held s1 = (if constructible mode agentUrl then {[next_handle s]} else ∅) /\
    forall ops,
      forallb (fun op => negb (is_settings op)) ops = true ->
      manager (run ops s1) = manager s1 /\
      (forall h, h ∈ held s ->
         (h ∉ held (run ops s1)) /\
         (is_Some (heap s !! h) -> status_of (run ops s1) h = Some Closed)) /\
      Forall passive (effects_since s1 (run ops s1)) /\
      (forall ops1 ops2 h,
         ops = ops1 ++ ops2 -> h ∈ held s1 ->
         status_of (run ops1 s1) h = Some Closed ->
         active_handle (run ops s1) = None) /\
      (constructible mode agentUrl = false -> active_handle (run ops s1) = None).
Proof.
  intros Hr Ec Em Ea. apply Reachable_Inv in Hr.
  destruct (settings_outcome body write_ok s clientId mode agentUrl Ec Em Ea)
    as (s1 & Hs1 & Hcfg & Hrpc & Hws & Hold).
  exists s1. split; [done|]. split; [done|].
  assert (Hheld1 : held s1 =
            (if constructible mode agentUrl then {[next_handle s]} else ∅)).
  { unfold held. rewrite Hrpc, Hws.
    destruct (constructible mode agentUrl), (is_string mode "local");
      cbn [andb negb]; set_solver. }
  split; [done|]. intros ops Hops.
  destruct (run_passive ops s1 Hops) as (Hman & Hnext & es & Htrace & Hpass).
  split; [done|]. split; [|split; [|split]].
  - intros h Hh. pose proof (inv_fresh s Hr h Hh) as Hlt. split.
    + rewrite (held_manager _ _ Hman), Hheld1.
      destruct (constructible mode agentUrl); set_solver by lia.
    + intros [o Ho]. apply closed_run; [done|]. unfold status_of.
      rewrite (Hold h Hlt), lookup_close_held.
      rewrite bool_decide_eq_true_2 by (by apply held_iff).
      by rewrite Ho.
  - unfold effects_since. rewrite Htrace. by rewrite drop_app_length.
  - intros ops1 ops2 h -> Hh Hclosed. rewrite Hheld1 in Hh.
    destruct (constructible mode agentUrl) eqn:Hk; [|set_solver].
    apply elem_of_singleton in Hh. subst h.
    rewrite forallb_app in Hops. apply andb_true_iff in Hops as [_ Hops2].
    rewrite run_app in Hman |- *.
    pose proof (closed_run ops2 _ _ Hops2 Hclosed) as Hst.
    unfold active_handle. injection Hman as Hc' Hr' Hw'.
    rewrite Hc', Hcfg, prop_cfg_mode, Hr', Hw', Hrpc, Hws, ?Hk.
    destruct (is_string mode "local"); cbn [andb negb]; by rewrite Hst.
  - intros Hk. unfold active_handle. injection Hman as Hc' Hr' Hw'.
    rewrite Hc', Hcfg, prop_cfg_mode, Hr', Hw', Hrpc, Hws, ?Hk.
    by destruct (is_string mode "local").
Qed.

Lemma deliver_manager h ev arg s :
  manager (state_of (deliver h ev arg s)) = manager s.
Proof.
  rewrite deliver_eq. cbn [state_of]. destruct (heap s !! h); [|done].
  by destruct s.
Qed.

(** *** One handle at a time *)

Lemma held_single s :
  Inv s -> rpcClient s = None \/ wsClient s = None.
Proof.
  intros HI. destruct (prop_has_props (config s) "mode" (inv_config s HI)) as [m Em].
  pose proof (inv_mode s HI m Em) as Hm.
  destruct (is_string m "local"); auto.
Qed.

Lemma held_size s : Inv s -> size (held s) <= 1.
Proof.
  intros HI. unfold held.
  destruct (held_single s HI) as [-> | ->].
  - rewrite union_empty_l_L. destruct (wsClient s).
    + by rewrite size_singleton.
    + rewrite size_empty. lia.
  - rewrite union_empty_r_L. destruct (rpcClient s).
    + by rewrite size_singleton.
    + rewrite size_empty. lia.
Qed.

Lemma settings_releases_first body write_ok s c m a :
  prop body "clientId" = Some c ->
  prop body "mode" = Some m ->
  prop body "agentUrl" = Some a ->
  Inv s ->
  exists s_mid,
    settings_handler body write_ok s =
      try_catch (initTransport >> ret (SendStatus 204)) settings_failed s_mid /\
    rpcClient s_mid = None /\ wsClient s_mid = None /\
    live (trace s_mid) = ∅ /\
    effects_since s s_mid =
      save_effects write_ok (JObj [("clientId", c); ("mode", m); ("agentUrl", a)]) ++
      release_effects (rpcClient s) (wsClient s).
Proof.
  intros Ec Em Ea HI. pose proof (inv_live s HI) as Hl.
  destruct s as [cfg rpc ws hp n tr].
  unfold held in Hl. cbn [rpcClient wsClient trace] in Hl.
  exists (mkState (JObj [("clientId", c); ("mode", m); ("agentUrl", a)]) None None
            (close_held rpc ws hp) n
            (tr ++ save_effects write_ok
                     (JObj [("clientId", c); ("mode", m); ("agentUrl", a)]) ++
                   release_effects rpc ws)).
  unfold effects_since.
  cbn [config rpcClient wsClient heap next_handle trace].
  split; [|split; [done|split; [done|split]]].
  - unfold close_held, save_effects, release_effects.
    destruct (is_string m "local") eqn:El.
    all: destruct write_ok, rpc as [hr|], ws as [hw|]; norm;
      cbn [from_option id app]; rewrite <- ?app_assoc; reflexivity.
  - rewrite app_assoc, live_app, live_app_quiet.
    2:{ unfold save_effects. destruct write_ok; repeat constructor. }
    unfold release_effects.
    destruct rpc as [hr|], ws as [hw|];
      cbn [from_option app live_from fold_left track creates closes];
      set_solver.
  - by rewrite drop_app_length.
Qed.

(** C2: in every state of a run at most one of [rpcClient] and [wsClient] is
    set, every live handle is the one the plugin references, so at most one
    handle is live, and no handle was ever constructed while another one was
    live.  [init] establishes the invariant behind this; every operation, and
    [sendActivity] by itself, preserves it, whether it returns or raises.  In
    the settings handler the transport is only initialised after both
    variables were cleared and the handles they held were closed. *)
Theorem C2_single_handle :
  (forall s, Reachable s ->
     (rpcClient s = None \/ wsClient s = None) /\
     live (trace s) ⊆ held s /\
     size (live (trace s)) <= 1 /\
     swap_ok ∅ (trace s) = true) /\
  (forall file s0, init (boot file) = Ok tt s0 -> Inv s0) /\
  (forall op s, Inv s -> Inv (step op s)) /\
  (forall activity s, Inv s -> Inv (state_of (sendActivity activity s))) /\
  (forall body write_ok s c m a,
     prop body "clientId" = Some c ->
     prop body "mode" = Some m ->
     prop body "agentUrl" = Some a ->
     Inv s ->
     exists s_mid,
       settings_handler body write_ok s =
         try_catch (initTransport >> ret (SendStatus 204)) settings_failed s_mid /\
       rpcClient s_mid = None /\ wsClient s_mid = None /\
       live (trace s_mid) = ∅ /\
       Forall (fun e => creates e = None) (effects_since s s_mid)).
Proof.
  split; [|split; [|split; [|split]]].
  - intros s Hr. apply Reachable_Inv in Hr.
    split; [by apply held_single|]. split; [by apply inv_live|].
    split; [|by apply inv_swap].
    etrans; [apply subseteq_size, (inv_live s Hr) | by apply held_size].
  - apply Inv_init.
  - intros op s. apply Inv_step.
  - intros activity s HI.
    destruct (sendActivity_frame activity s) as (es & Hq & ->).
    by apply Inv_add_effects.
  - intros body write_ok s c m a Ec Em Ea HI.
    destruct (settings_releases_first body write_ok s c m a Ec Em Ea HI)
      as (s_mid & Heq & Hr & Hw & Hl & He).
    exists s_mid. repeat (split; [done|]). rewrite He.
    apply Forall_app. split.
    + unfold save_effects. destruct write_ok; repeat constructor.
    + unfold release_effects.
      destruct (rpcClient s), (wsClient s); repeat constructor.
Qed.

(** *** Library events *)

Lemma deliver_only_logs h ev arg s :
  manager (state_of (deliver h ev arg s)) = manager s /\
  next_handle (state_of (deliver h ev arg s)) = next_handle s /\
  exists es,
    trace (state_of (deliver h ev arg s)) = trace s ++ es /\
    Forall (fun e => is_console e = true) es.
Proof.
  rewrite deliver_eq. cbn [state_of]. destruct (heap s !! h) as [o|].
  - destruct s. repeat split; try done. eexists. split; [reflexivity|].
    unfold listeners_log. apply Forall_map, Forall_forall.
    intros [ev' l] _. by destruct l.
  - repeat split; try done. exists []. by rewrite app_nil_r.
Qed.

Lemma error_event_logged mode clientId agentUrl arg :
  listeners_log (obj_listeners (new_object mode clientId agentUrl)) EvError arg =
  [Console LvError Red
     (if is_string mode "local" then "Local RPC error" else "WS error")
     [LogVal arg]].
Proof. unfold new_object. by destruct (is_string mode "local"). Qed.

Lemma close_event_logged mode clientId agentUrl arg :
  listeners_log (obj_listeners (new_object mode clientId agentUrl)) EvClose arg =
  if is_string mode "local"
  then [Console LvWarn Yellow "Local RPC transport closed" []]
  else [].
Proof. unfold new_object. by destruct (is_string mode "local"). Qed.

Lemma step_settings body write_ok s :
  step (OpSettings body write_ok) s = state_of (settings_handler body write_ok s).
Proof. reflexivity. Qed.

(** C6, at the input where it fails: a socket that reached [Ready] and then
    emits [close] without an [error]; its url is one the constructor
    accepts.  The plugin registered no listener for the event, so nothing is
    printed; the same event on the local client prints 'Local RPC transport
    closed'.  Neither event changes the variables. *)
Theorem C6_socket_close_not_logged :
  WebSocket_rejects (JStr "ws://agent") = false ->
  let started := state_of (init (boot None)) in
  let remote := JObj [("mode", JStr "remote"); ("agentUrl", JStr "ws://agent")] in
  let s := run [OpSettings remote true; OpDeliver 1 EvOpen JUndefined] started in
  let s' := step (OpDeliver 1 EvClose JUndefined) s in
  let local := run [OpDeliver 0 EvReady JUndefined] started in
  let local' := step (OpDeliver 0 EvClose JUndefined) local in
  active_handle s = Some 1 /\
  status_of s' 1 = Some Closed /\
  effects_since s s' = [] /\
  manager s' = manager s /\
  active_handle local = Some 0 /\
  status_of local' 0 = Some Closed /\
  effects_since local local' =
    [Console LvWarn Yellow "Local RPC transport closed" []] /\
  manager local' = manager local.
Proof.
  intros Hacc. cbn zeta. unfold run. cbn [fold_left].
  assert (Hk : constructible (JStr "remote") (JStr "ws://agent") = true)
    by (unfold constructible; by rewrite Hacc).
  rewrite step_settings.
  rewrite (settings_eq
             (JObj [("mode", JStr "remote"); ("agentUrl", JStr "ws://agent")])
             true (state_of (init (boot None)))
             JUndefined (JStr "remote") (JStr "ws://agent")
             eq_refl eq_refl eq_refl Hk).
  split; [|split; [|split; [|split; [|split; [|split; [|split]]]]]];
    vm_compute; reflexivity.
Qed.
(** *** Well-formed states *)

Lemma step_heap op s h o :
  h < next_handle s -> heap s !! h = Some o ->
  exists st,
    heap (step op s) !! h = Some (with_status st o) /\
    (obj_status o = Closed -> st = Closed).
Proof.
  intros Hlt Ho.
  assert (Hsame : exists st, Some o = Some (with_status st o) /\
                             (obj_status o = Closed -> st = Closed)).
  { exists (obj_status o). by rewrite with_status_same. }
  destruct op as [|body w|body|now| |h' ev arg].
  - by rewrite <- Ho in Hsame.
  - unfold step. destruct (prop body "clientId") as [c|] eqn:Ec.
    + destruct (body_props _ _ Ec) as (m & a & Em & Ea).
      destruct (settings_outcome body w s c m a Ec Em Ea)
        as (s1 & -> & _ & _ & _ & Hold).
      cbn [state_of]. rewrite (Hold h Hlt), lookup_close_held, Ho.
      case_bool_decide; [|done]. by exists Closed.
    + rewrite (settings_rejected body w s Ec). cbn [state_of].
      destruct s. cbn [heap add_effect] in *. by rewrite Ho.
  - destruct (update_frame body s) as (es & _ & ->).
    destruct s. cbn [heap add_effects] in *. by rewrite Ho.
  - destruct (test_frame now s) as (es & _ & ->).
    destruct s. cbn [heap add_effects] in *. by rewrite Ho.
  - unfold step. rewrite exit_eq. cbn [state_of heap].
    rewrite lookup_close_held, Ho. case_bool_decide; [|done]. by exists Closed.
  - unfold step. rewrite deliver_eq. cbn [state_of].
    destruct (heap s !! h') as [o'|] eqn:Eo'; [|by rewrite Ho].
    destruct s as [cfg rpc ws hp n tr]. cbn [heap add_effects set_heap] in *.
    rewrite lookup_alter. case_decide as Hh; [subst h'|by rewrite Ho].
    rewrite Ho. rewrite Ho in Eo'. injection Eo' as <-. cbn.
    eexists. split; [reflexivity|]. intros ->. apply lib_transition_closed.
Qed.

Lemma step_dom op s :
  (forall h, is_Some (heap s !! h) -> h < next_handle s) ->
  forall h, is_Some (heap (step op s) !! h) -> h < next_handle (step op s).
Proof.
  intros Hdom h.
  destruct op as [|body w|body|now| |h' ev arg].
  - apply Hdom.
  - unfold step. destruct (prop body "clientId") as [c|] eqn:Ec.
    + destruct (body_props _ _ Ec) as (m & a & Em & Ea).
      destruct (constructible m a) eqn:Hk.
      * rewrite (settings_eq body w s c m a Ec Em Ea Hk).
        cbn [state_of heap next_handle].
        rewrite lookup_insert_is_Some, lookup_close_held.
        intros [<- | [_ Hh]]; [lia|].
        case_bool_decide; rewrite ?fmap_is_Some in Hh; apply Hdom in Hh; lia.
      * rewrite (settings_refused body w s c m a Ec Em Ea Hk).
        cbn [state_of heap next_handle]. rewrite lookup_close_held.
        case_bool_decide; rewrite ?fmap_is_Some; apply Hdom.
    + rewrite (settings_rejected body w s Ec). cbn [state_of].
      destruct s. apply Hdom.
  - destruct (update_frame body s) as (es & _ & ->). destruct s. apply Hdom.
  - destruct (test_frame now s) as (es & _ & ->). destruct s. apply Hdom.
  - unfold step. rewrite exit_eq. cbn [state_of heap next_handle].
    rewrite lookup_close_held.
    case_bool_decide; rewrite ?fmap_is_Some; apply Hdom.
  - unfold step. rewrite deliver_eq. cbn [state_of].
    destruct (heap s !! h') as [o'|] eqn:Eo'; [|apply Hdom].
    destruct s as [cfg rpc ws hp n tr]. cbn [heap next_handle add_effects set_heap] in *.
    rewrite lookup_alter_is_Some. apply Hdom.
Qed.

Lemma selected_manager s s' : manager s' = manager s -> selected s' = selected s.
Proof. unfold manager, selected, in_local_mode. by intros [= -> -> ->]. Qed.

Lemma Wf_step op s : Wf s -> Wf (step op s).
Proof.
  intros [HI Hdom (m & c & a & Em & Ec & Ea & Hsel)].
  split; [by apply Inv_step | by apply step_dom |].
  assert (Hkeep : manager (step op s) = manager s ->
    exists m c a,
      prop (config (step op s)) "mode" = Some m /\
      prop (config (step op s)) "clientId" = Some c /\
      prop (config (step op s)) "agentUrl" = Some a /\
      if constructible m a
      then exists h st,
             selected (step op s) = Some h /\
             heap (step op s) !! h = Some (with_status st (new_object m c a))
      else rpcClient (step op s) = None /\ wsClient (step op s) = None).
  { intros Hman. pose proof (selected_manager _ _ Hman) as Hsel'.
    assert (config (step op s) = config s) as Hcfg by (by injection Hman).
    exists m, c, a. rewrite Hcfg. do 3 (split; [done|]).
    destruct (constructible m a).
    - destruct Hsel as (h & st & Hs & Ho).
      assert (h < next_handle s) as Hlt by (apply Hdom; by rewrite Ho).
      destruct (step_heap op s h _ Hlt Ho) as (st' & Ho' & _).
      exists h, st'. rewrite Hsel', Ho', with_status_twice. done.
    - injection Hman as _ -> ->. done. }
  destruct (is_settings op) eqn:Hop.
  2:{ apply Hkeep. by apply step_passive. }
  destruct op as [|body w| | | |]; try discriminate.
  destruct (prop body "clientId") as [c'|] eqn:Ec'.
  - destruct (body_props _ _ Ec') as (m' & a' & Em' & Ea').
    exists m', c', a'. unfold step.
    destruct (constructible m' a') eqn:Hk.
    + rewrite (settings_eq body w s c' m' a' Ec' Em' Ea' Hk).
      cbn [state_of]. unfold selected, in_local_mode.
      cbn [config rpcClient wsClient heap].
      rewrite prop_cfg_mode, prop_cfg_clientId, prop_cfg_agentUrl.
      do 3 (split; [done|]). exists (next_handle s), Connecting.
      rewrite lookup_insert_eq, with_status_new_object.
      by destruct (is_string m' "local").
    + rewrite (settings_refused body w s c' m' a' Ec' Em' Ea' Hk).
      cbn [state_of config rpcClient wsClient heap].
      by rewrite prop_cfg_mode, prop_cfg_clientId, prop_cfg_agentUrl.
  - apply Hkeep. unfold step. rewrite (settings_rejected body w s Ec').
    by destruct s.
Qed.

Lemma Wf_run ops s : Wf s -> Wf (run ops s).
Proof.
  revert s. induction ops as [|op ops IH]; intros s HW; [done|].
  cbn. apply IH. by apply Wf_step.
Qed.

Lemma Wf_init file s0 : init (boot file) = Ok tt s0 -> Wf s0.
Proof.
  intros Hinit. pose proof (Inv_init file s0 Hinit) as HI.
  destruct (has_props (config (boot file))) eqn:Hc.
  2:{ rewrite init_throws in Hinit by done. discriminate. }
  destruct (prop_has_props _ "mode" Hc) as [m Em].
  destruct (prop_has_props _ "clientId" Hc) as [c Ec].
  destruct (prop_has_props _ "agentUrl" Hc) as [a Ea].
  destruct (constructible m a) eqn:Hk.
  2:{ rewrite (init_refused _ m a Em Ea Hk) in Hinit. discriminate. }
  rewrite (init_eq _ m c a Em Ec Ea Hk) in Hinit. injection Hinit as <-.
  split; [done| |].
  - intros h. cbn [heap next_handle boot].
    rewrite lookup_insert_is_Some, lookup_empty.
    intros [<- | [_ [? ?]]]; [lia | done].
  - exists m, c, a.
    unfold selected, in_local_mode. cbn [config rpcClient wsClient heap boot] in *.
    rewrite Em, Ec, Ea, Hk. do 3 (split; [done|]). exists 0, Connecting.
    rewrite lookup_insert_eq, with_status_new_object.
    by destruct (is_string m "local").
Qed.

Lemma Reachable_Wf s : Reachable s -> Wf s.
Proof.
  intros (file & s0 & ops & Hinit & ->). apply Wf_run. by eapply Wf_init.
Qed.
(** *** Two settings updates *)

Lemma run_heap_between ops s h o :
  forallb in_between ops = true ->
  h < next_handle s -> heap s !! h = Some o ->
  exists st, heap (run ops s) !! h = Some (with_status st o).
Proof.
  revert s o. induction ops as [|op ops IH]; intros s o Hops Hlt Ho.
  - exists (obj_status o). by rewrite with_status_same.
  - cbn in Hops. apply andb_true_iff in Hops as [Hop Hops].
    destruct (step_quiet op s Hop) as (_ & Hn & _).
    destruct (step_heap op s h o Hlt Ho) as (st & Ho' & _).
    cbn [run fold_left]. fold (run ops (step op s)).
    assert (Hlt' : h < next_handle (step op s)) by (by rewrite Hn).
    destruct (IH (step op s) _ Hops Hlt' Ho') as (st' & Ho'').
    exists st'. by rewrite Ho'', with_status_twice.
Qed.

(** C3, for configurations for which a transport can be constructed: a
    settings update with body A, then requests and library events other than
    a settings update or [exit] (so that the handle of A may have become
    [Ready], or may have failed), then a settings update with body B.  The
    first update leaves one handle [hA], which is still the one held when the
    second arrives; since the first update, the closing method of [hA] is
    called once, by the second update, after effects that neither construct,
    connect nor close a handle and before the effects that construct and
    connect the new handle [hB]; afterwards [hA] is [Closed] and [hB], a
    fresh object built from B, is the only handle held and the only live
    one.  An event of [hA], in whatever state it arrives, leaves [config],
    [rpcClient] and [wsClient] as they are. *)
Theorem C3_swap_safety
  (s : State) (bodyA bodyB cA mA aA cB mB aB : JsVal) (wA wB : bool)
  (ops : list Op) :
  Reachable s ->
  prop bodyA "clientId" = Some cA -> prop bodyA "mode" = Some mA ->
  prop bodyA "agentUrl" = Some aA ->
  prop bodyB "clientId" = Some cB -> prop bodyB "mode" = Some mB ->
  prop bodyB "agentUrl" = Some aB ->
  constructible mA aA = true ->
  constructible mB aB = true ->
  forallb in_between ops = true ->
  exists s1 s2 hA hB,
    settings_handler bodyA wA s = Ok (SendStatus 204) s1 /\
    settings_handler bodyB wB (run ops s1) = Ok (SendStatus 204) s2 /\
    held s1 = {[hA]} /\ held (run ops s1) = {[hA]} /\
    held s2 = {[hB]} /\ hA <> hB /\
    live (trace s2) = {[hB]} /\
    config s2 = JObj [("clientId", cB); ("mode", mB); ("agentUrl", aB)] /\
    heap s2 !! hB = Some (new_object mB cB aB) /\
    status_of s2 hA = Some Closed /\
    (exists pre c post,
       effects_since s1 s2 = pre ++ c :: post /\
       closes c = Some hA /\
       Forall quiet pre /\
       Forall (fun e => closes e = None) post /\
       Exists (fun e => connects e = Some hB) post) /\
    (forall s' ev arg, manager (state_of (deliver hA ev arg s')) = manager s').
Proof.
  intros Hr EcA EmA EaA EcB EmB EaB HkA HkB Hops. apply Reachable_Wf in Hr.
  destruct (settings_spec bodyA wA s cA mA aA EcA EmA EaA HkA)
    as (s1 & Hs1 & Hcfg1 & Hn1 & Hrpc1 & Hws1 & Hobj1 & Htr1).
  destruct (run_quiet ops s1 Hops) as (Hman & Hnext & es & Htrace & Hq).
  destruct (settings_spec bodyB wB (run ops s1) cB mB aB EcB EmB EaB HkB)
    as (s2 & Hs2 & Hcfg2 & Hn2 & Hrpc2 & Hws2 & Hobj2 & Htr2).
  exists s1, s2, (next_handle s), (next_handle (run ops s1)).
  assert (HW1 : Wf s1).
  { pose proof (Wf_step (OpSettings bodyA wA) s Hr) as HW. unfold step in HW.
    by rewrite Hs1 in HW. }
  assert (HI1' : Inv (run ops s1)) by (apply Inv_run, HW1).
  assert (Hheld1 : held s1 = {[next_handle s]}).
  { unfold held. rewrite Hrpc1, Hws1. destruct (is_string mA "local"); set_solver. }
  assert (Hheld1' : held (run ops s1) = {[next_handle s]}).
  { by rewrite (held_manager _ _ Hman). }
  assert (Hheld2 : held s2 = {[next_handle (run ops s1)]}).
  { unfold held. rewrite Hrpc2, Hws2. destruct (is_string mB "local"); set_solver. }
  assert (Hvars : rpcClient (run ops s1) = rpcClient s1 /\
                  wsClient (run ops s1) = wsClient s1)
    by (by injection Hman).
  destruct Hvars as [Hr' Hw'].
  split; [done|]. split; [done|]. split; [done|]. split; [done|].
  split; [done|]. split; [rewrite Hnext, Hn1; lia|].
  assert (Hquiet : Forall quiet
            (save_effects wB (JObj [("clientId", cB); ("mode", mB); ("agentUrl", aB)]))).
  { unfold save_effects. destruct wB; repeat constructor. }
  split; [|split; [done|split; [done|split; [|split]]]].
  - pose proof (inv_live _ HI1') as Hl. rewrite Hheld1' in Hl.
    rewrite Htr2, app_assoc, live_app, live_app_quiet by done.
    rewrite Hr', Hw', Hrpc1, Hws1, Hnext, Hn1.
    unfold release_effects, init_effects.
    destruct (is_string mA "local"), (is_string mB "local");
      cbn [from_option app live_from fold_left track creates closes];
      set_solver.
  - assert (HltA : next_handle s < next_handle s1) by (rewrite Hn1; lia).
    destruct (run_heap_between ops s1 (next_handle s) _ Hops HltA Hobj1)
      as (st & Ho).
    destruct (settings_outcome bodyB wB (run ops s1) cB mB aB EcB EmB EaB)
      as (s2' & Hs2' & _ & _ & _ & Hold).
    rewrite Hs2, HkB in Hs2'. injection Hs2' as <-.
    unfold status_of. rewrite Hold by (rewrite Hnext, Hn1; lia).
    rewrite lookup_close_held, bool_decide_eq_true_2, Ho; [done|].
    rewrite Hr', Hw', Hrpc1, Hws1. destruct (is_string mA "local"); auto.
  - exists (es ++ save_effects wB
                    (JObj [("clientId", cB); ("mode", mB); ("agentUrl", aB)])),
      (if is_string mA "local" then RpcDestroy (next_handle s)
       else WsClose (next_handle s)),
      (init_effects mB cB aB (next_handle (run ops s1))).
    split; [|split; [|split; [|split]]].
    + unfold effects_since. rewrite Htr2, Htrace, <- !app_assoc, drop_app_length.
      rewrite Hr', Hw', Hrpc1, Hws1.
      unfold release_effects. by destruct (is_string mA "local").
    + by destruct (is_string mA "local").
    + by apply Forall_app.
    + unfold init_effects. destruct (is_string mB "local"); repeat constructor.
    + unfold init_effects. destruct (is_string mB "local").
      * do 2 apply Exists_cons_tl. by apply Exists_cons_hd.
      * by apply Exists_cons_hd.
  - intros s' ev arg. apply deliver_manager.
Qed.
(** *** Where activities are sent *)

Lemma effects_since_add es s : effects_since s (add_effects es s) = es.
Proof. unfold effects_since. destruct s. cbn. apply drop_app_length. Qed.

Lemma effects_since_self s : effects_since s s = [].
Proof. unfold effects_since. apply drop_all. Qed.

Lemma no_send_ok s es :
  Forall (fun e => sends e = false) es ->
  Forall (send_ok s) es /\ length (filter sends es) <= 1.
Proof.
  intros Hn. split.
  - eapply Forall_impl; [exact Hn|]. intros e He. by destruct e.
  - induction Hn as [|e es He _ IH]; [cbn; lia|].
    rewrite filter_cons_False; [done|]. intros Hs. by rewrite He in Hs.
Qed.

Ltac send_goal :=
  eexists; split;
  [ unfold add_effects; cbn [config rpcClient wsClient heap next_handle trace];
    first [ rewrite <- ?app_assoc; cbn [app]; reflexivity
          | rewrite app_nil_r; reflexivity ]
  | split;
    [ repeat constructor;
      unfold in_local_mode, status_of;
      cbn [config rpcClient wsClient heap];
      use_eqs; cbn; try done
    | vm_compute; lia ] ].

Lemma sendActivity_sends activity s :
  exists es,
    state_of (sendActivity activity s) = add_effects es s /\
    Forall (send_ok s) es /\ length (filter sends es) <= 1.
Proof.
  destruct s as [cfg rpc ws hp n tr].
  cases_sendActivity cfg rpc ws hp; norm; try rewrite Es; send_goal;
    try by rewrite Es.
Qed.

Lemma update_sends body s :
  exists es,
    step (OpUpdate body) s = add_effects es s /\
    Forall (send_ok s) es /\ length (filter sends es) <= 1.
Proof.
  destruct s as [cfg rpc ws hp n tr].
  destruct (prop body "details") as [d|] eqn:Ed.
  2:{ norm. send_goal. }
  apply prop_Some_has_props in Ed.
  destruct (prop_has_props body "details" Ed) as [d' Ed'].
  destruct (prop_has_props body "state" Ed) as [st Est].
  destruct (prop_has_props body "largeImageKey" Ed) as [k Ek].
  destruct (prop_has_props body "startTimestamp" Ed) as [ts Ets].
  cases_sendActivity cfg rpc ws hp; norm; try rewrite Es; send_goal;
    try by rewrite Es.
Qed.

Lemma test_sends now s :
  exists es,
    step (OpTest now) s = add_effects es s /\
    Forall (send_ok s) es /\ length (filter sends es) <= 1.
Proof.
  destruct s as [cfg rpc ws hp n tr].
  cases_sendActivity cfg rpc ws hp; norm; try rewrite Es; send_goal;
    try by rewrite Es.
Qed.

Lemma settings_effects body w s :
  exists es,
    trace (step (OpSettings body w) s) = trace s ++ es /\
    Forall (fun e => sends e = false) es.
Proof.
  unfold step. destruct (prop body "clientId") as [c|] eqn:Ec.
  - destruct (body_props _ _ Ec) as (m & a & Em & Ea).
    destruct (constructible m a) eqn:Hk.
    + rewrite (settings_eq body w s c m a Ec Em Ea Hk). cbn [state_of trace].
      eexists. split; [reflexivity|].
      unfold save_effects, release_effects, init_effects.
      destruct w, (rpcClient s), (wsClient s), (is_string m "local");
        cbn; repeat constructor.
    + rewrite (settings_refused body w s c m a Ec Em Ea Hk). cbn [state_of trace].
      eexists. split; [reflexivity|].
      unfold save_effects, release_effects, refusal_effects.
      destruct w, (rpcClient s), (wsClient s); cbn; repeat constructor.
  - rewrite (settings_rejected body w s Ec). destruct s.
    cbn [state_of trace add_effect]. eexists. split; [reflexivity|].
    repeat constructor.
Qed.

Lemma step_trace op s : exists es, trace (step op s) = trace s ++ es.
Proof.
  destruct (is_settings op) eqn:Hop.
  2:{ destruct (step_passive op s Hop) as (_ & _ & es & Ht & _). eauto. }
  destruct op as [|body w| | | |]; try discriminate.
  destruct (settings_effects body w s) as (es & Ht & _). eauto.
Qed.

Lemma settings_no_send body w s :
  Forall (fun e => sends e = false)
         (effects_since s (step (OpSettings body w) s)).
Proof.
  destruct (settings_effects body w s) as (es & Ht & Hn).
  unfold effects_since. by rewrite Ht, drop_app_length.
Qed.

Lemma step_sends (op : Op) (s : State) :
  Forall (send_ok s) (effects_since s (step op s)) /\
  length (filter sends (effects_since s (step op s))) <= 1.
Proof.
  destruct op as [|body w|body|now| |h ev arg].
  - cbn. rewrite effects_since_self. split; [constructor | cbn; lia].
  - apply no_send_ok, settings_no_send.
  - destruct (update_sends body s) as (es & -> & H1 & H2).
    by rewrite effects_since_add.
  - destruct (test_sends now s) as (es & -> & H1 & H2).
    by rewrite effects_since_add.
  - apply no_send_ok. unfold step, effects_since. rewrite exit_eq.
    cbn [state_of trace]. rewrite drop_app_length.
    destruct (rpcClient s), (wsClient s); cbn; repeat constructor.
  - apply no_send_ok. unfold step, effects_since. rewrite deliver_eq.
    cbn [state_of]. destruct (heap s !! h) as [o|].
    + destruct s. cbn [trace add_effects set_heap]. rewrite drop_app_length.
      unfold listeners_log. apply Forall_map, Forall_forall.
      intros [ev' l] _. by destruct l.
    + rewrite drop_all. constructor.
Qed.

(** Every send effect of an operation goes to the handle that the variable
    of the current mode holds, a socket is only written to when it is open,
    and an operation sends at most once. *)
Theorem sends_go_to_current_handle (op : Op) (s : State) :
  Forall (send_ok s) (effects_since s (step op s)) /\
  length (filter sends (effects_since s (step op s))) <= 1.
Proof. apply step_sends. Qed.

(** *** The handle of the current mode *)

Lemma Wf_held s h :
  Wf s -> selected s = Some h ->
  exists m c a st,
    prop (config s) "mode" = Some m /\
    prop (config s) "clientId" = Some c /\
    prop (config s) "agentUrl" = Some a /\
    constructible m a = true /\
    held s = {[h]} /\
    rpcClient s = (if is_string m "local" then Some h else None) /\
    wsClient s = (if is_string m "local" then None else Some h) /\
    heap s !! h = Some (with_status st (new_object m c a)).
Proof.
  intros [HI Hdom (m & c & a & Em & Ec & Ea & Hsel)] Hh.
  exists m, c, a. pose proof (inv_mode s HI m Em) as Hm.
  destruct (constructible m a).
  - destruct Hsel as (h' & st & Hsel & Ho).
    assert (h' = h) as -> by congruence. exists st.
    unfold selected, in_local_mode, held in *. rewrite Em in Hsel |- *.
    destruct (is_string m "local") eqn:El; rewrite Hsel, Hm;
      repeat split; try done; set_solver.
  - destruct Hsel as [Hr Hw]. unfold selected in Hh.
    destruct (in_local_mode s); congruence.
Qed.

Lemma Wf_none s m a :
  Wf s ->
  prop (config s) "mode" = Some m -> prop (config s) "agentUrl" = Some a ->
  constructible m a = false ->
  rpcClient s = None /\ wsClient s = None.
Proof.
  intros [HI Hdom (m' & c' & a' & Em & Ec & Ea & Hsel)] Em' Ea' Hk.
  assert (m' = m) as -> by congruence. assert (a' = a) as -> by congruence.
  by rewrite Hk in Hsel.
Qed.

Lemma Wf_some s m a :
  Wf s ->
  prop (config s) "mode" = Some m -> prop (config s) "agentUrl" = Some a ->
  constructible m a = true ->
  exists h, selected s = Some h.
Proof.
  intros [HI Hdom (m' & c' & a' & Em & Ec & Ea & Hsel)] Em' Ea' Hk.
  assert (m' = m) as -> by congruence. assert (a' = a) as -> by congruence.
  rewrite Hk in Hsel. destruct Hsel as (h & st & Hs & _). eauto.
Qed.

(** In every state of a run the configuration is an object.  When a
    transport can be constructed for it (its mode is local, or the WebSocket
    constructor accepts its [agentUrl]), exactly one of [rpcClient] and
    [wsClient] is set, the one [config.mode] selects, and the object it
    refers to is of that kind and was constructed for the [clientId],
    respectively the [agentUrl], of the current configuration.  Otherwise the
    mode is not local and both variables are null. *)
Theorem selected_handle_matches_config (s : State) :
  Reachable s ->
  exists m a,
    prop (config s) "mode" = Some m /\
    prop (config s) "agentUrl" = Some a /\
    if constructible m a
    then exists h o,
           held s = {[h]} /\ heap s !! h = Some o /\
           (if in_local_mode s
            then rpcClient s = Some h /\ wsClient s = None /\
                 obj_kind o = RpcClientObj /\
                 prop (config s) "clientId" = Some (obj_target o)
            else wsClient s = Some h /\ rpcClient s = None /\
                 obj_kind o = WebSocketObj /\
                 prop (config s) "agentUrl" = Some (obj_target o))
    else in_local_mode s = false /\ held s = ∅ /\
         rpcClient s = None /\ wsClient s = None.
Proof.
  intros Hr. apply Reachable_Wf in Hr.
  destruct (wf_selected s Hr) as (m & c & a & Em & Ec & Ea & _).
  exists m, a. split; [done|]. split; [done|].
  destruct (constructible m a) eqn:Hk.
  - destruct (Wf_some s m a Hr Em Ea Hk) as [h Hsel].
    destruct (Wf_held s h Hr Hsel)
      as (m' & c' & a' & st & Em' & Ec' & Ea' & _ & Hh & Hrpc & Hws & Ho).
    assert (m' = m) as -> by congruence. assert (a' = a) as -> by congruence.
    assert (c' = c) as -> by congruence.
    exists h, (with_status st (new_object m c a)).
    split; [done|]. split; [done|].
    unfold in_local_mode, new_object. rewrite Em, Hrpc, Hws, Ec, Ea.
    by destruct (is_string m "local").
  - destruct (Wf_none s m a Hr Em Ea Hk) as [Hrpc Hws].
    destruct (not_constructible m a Hk) as [El _].
    unfold in_local_mode, held. rewrite Em, El, Hrpc, Hws.
    repeat split; try done; set_solver.
Qed.

(** In every state of a run, an event of the current handle prints what the
    listeners registered at its construction print, once each, and changes
    none of the three variables: the local client prints one line for
    [ready], [error], [close] and a rejected [login]; the socket prints one
    line for [open], naming the [agentUrl] of the current configuration, and
    for [error], and nothing for any other event. *)
Theorem current_handle_event_log (s : State) (h : handle) (ev : Event) (arg : JsVal) :
  Reachable s ->
  selected s = Some h ->
  exists s' agentUrl,
    deliver h ev arg s = Ok tt s' /\
    manager s' = manager s /\
    prop (config s) "agentUrl" = Some agentUrl /\
    effects_since s s' =
      (if in_local_mode s then local_event_log ev arg
       else remote_event_log agentUrl ev arg).
Proof.
  intros Hr Hsel. apply Reachable_Wf in Hr.
  destruct (Wf_held s h Hr Hsel)
    as (m & c & a & st & Em & Ec & Ea & _ & _ & _ & _ & Ho).
  eexists _, a. split; [apply deliver_eq|]. rewrite Ho.
  split; [by destruct s|]. split; [done|].
  destruct s as [cfg rpc ws hp n tr]. unfold effects_since, in_local_mode.
  cbn [trace add_effects set_heap config] in *. rewrite drop_app_length, Em.
  unfold new_object. by destruct (is_string m "local"), ev.
Qed.

(** *** Handles that were replaced or closed *)

Lemma step_held op s h :
  h ∈ held (step op s) -> h ∈ held s \/ h = next_handle s.
Proof.
  destruct (is_settings op) eqn:Hop.
  2:{ destruct (step_passive op s Hop) as (Hman & _).
      rewrite (held_manager _ _ Hman). auto. }
  destruct op as [|body w| | | |]; try discriminate. unfold step.
  destruct (prop body "clientId") as [c|] eqn:Ec.
  - destruct (body_props _ _ Ec) as (m & a & Em & Ea).
    destruct (settings_outcome body w s c m a Ec Em Ea)
      as (s1 & -> & _ & Hrpc & Hws & _).
    cbn [state_of]. unfold held at 1. rewrite Hrpc, Hws.
    destruct (constructible m a), (is_string m "local"); cbn [andb negb];
      set_solver.
  - rewrite (settings_rejected body w s Ec). destruct s. auto.
Qed.

Lemma abandoned_run ops s h :
  Wf s -> status_of s h = Some Closed -> (forall h', h' ∈ held s -> h < h') ->
  status_of (run ops s) h = Some Closed /\
  (forall h', h' ∈ held (run ops s) -> h < h').
Proof.
  revert s. induction ops as [|op ops IH]; intros s HW Hst Hheld; [done|].
  cbn [run fold_left]. fold (run ops (step op s)).
  assert (Hlt : h < next_handle s).
  { apply (wf_dom s HW). unfold status_of in Hst.
    destruct (heap s !! h); [done | discriminate]. }
  apply IH; [by apply Wf_step | |].
  - unfold status_of in *. destruct (heap s !! h) as [o|] eqn:Ho; [|discriminate].
    cbn in Hst. injection Hst as Hst.
    destruct (step_heap op s h o Hlt Ho) as (st & -> & Hc).
    cbn. by rewrite Hc.
  - intros h' Hh'. apply step_held in Hh' as [Hh' | ->]; [by apply Hheld | done].
Qed.

Lemma Wf_held_in s h : Wf s -> h ∈ held s -> selected s = Some h.
Proof.
  intros HW Hh.
  destruct (wf_selected s HW) as (m & c & a & Em & Ec & Ea & Hsel).
  pose proof (inv_mode s (wf_inv s HW) m Em) as Hm.
  apply held_iff in Hh. unfold selected, in_local_mode in *. rewrite Em in *.
  destruct (constructible m a).
  - destruct (is_string m "local"); destruct Hh as [Hh | Hh]; congruence.
  - destruct Hsel as [Hr Hw]. destruct Hh as [Hh | Hh]; congruence.
Qed.

(** A handle that a settings update replaces is closed by it and stays
    [Closed] for the rest of the run, whatever events it emits and whatever
    requests, further settings updates included, are served; the plugin never
    holds it again and it is never the active handle. *)
Theorem replaced_handle_stays_closed
  (s : State) (body : JsVal) (write_ok : bool) (h : handle) (ops : list Op) :
  Reachable s ->
  has_props body = true ->
  h ∈ held s ->
  let s' := run ops (step (OpSettings body write_ok) s) in
  status_of s' h = Some Closed /\
  (h ∉ held s') /\
  active_handle s' <> Some h.
Proof.
  intros Hr Hb Hh s'. apply Reachable_Wf in Hr.
  destruct (Wf_held s h Hr (Wf_held_in s h Hr Hh))
    as (m0 & c0 & a0 & st & _ & _ & _ & _ & _ & _ & _ & Ho).
  assert (Hlt : h < next_handle s) by (apply (wf_dom s Hr); by rewrite Ho).
  destruct (prop_has_props body "clientId" Hb) as [c Ec].
  destruct (prop_has_props body "mode" Hb) as [m Em].
  destruct (prop_has_props body "agentUrl" Hb) as [a Ea].
  pose proof (Wf_step (OpSettings body write_ok) s Hr) as HW1.
  destruct (settings_outcome body write_ok s c m a Ec Em Ea)
    as (s1 & Hs1 & _ & Hrpc & Hws & Hold).
  destruct (abandoned_run ops (step (OpSettings body write_ok) s) h HW1)
    as (Hst & Hnew).
  - unfold step, status_of. rewrite Hs1. cbn [state_of].
    rewrite (Hold h Hlt), lookup_close_held, Ho.
    rewrite bool_decide_eq_true_2; [done|]. by apply held_iff.
  - intros h' Hh'. unfold step in Hh'. rewrite Hs1 in Hh'.
    unfold held in Hh'. cbn [state_of] in Hh'. rewrite Hrpc, Hws in Hh'.
    destruct (constructible m a), (is_string m "local"); cbn [andb negb] in Hh';
      set_solver by lia.
  - subst s'. split; [done|]. split.
    + intros Hin. apply Hnew in Hin. lia.
    + intros Ha. apply active_handle_Some in Ha as (m' & _ & Hready & _).
      rewrite Hst in Hready. discriminate.
Qed.

Lemma sends_impossible s es :
  Forall (send_ok s) es ->
  in_local_mode s = false ->
  (forall h, wsClient s = Some h -> status_of s h <> Some Ready) ->
  filter sends es = [].
Proof.
  intros Hok Hmode Hws. induction Hok as [|e es He _ IH]; [done|].
  rewrite filter_cons_False; [done|].
  destruct e; cbn in *; try tauto.
  - destruct He as [He _]. congruence.
  - destruct He as (_ & Hw & Hst). intros _. by apply (Hws _ Hw).
Qed.

Lemma wsClient_manager s s' : manager s' = manager s -> wsClient s' = wsClient s.
Proof. unfold manager. by intros [= _ _ ->]. Qed.

Lemma in_local_mode_manager s s' :
  manager s' = manager s -> in_local_mode s' = in_local_mode s.
Proof. unfold manager, in_local_mode. by intros [= -> _ _]. Qed.

Lemma silent_run ops s :
  in_local_mode s = false ->
  (forall h, wsClient s = Some h -> status_of s h = Some Closed) ->
  forallb (fun op => negb (is_settings op)) ops = true ->
  filter sends (effects_since s (run ops s)) = [].
Proof.
  revert s. induction ops as [|op ops IH]; intros s Hmode Hw Hops.
  - cbn. by rewrite effects_since_self.
  - cbn in Hops. apply andb_true_iff in Hops as [Hop Hops].
    apply negb_true_iff in Hop.
    cbn [run fold_left]. fold (run ops (step op s)).
    destruct (step_passive op s Hop) as (Hman & _ & es & Ht & _).
    destruct (run_passive ops (step op s) Hops) as (_ & _ & es' & Ht' & _).
    assert (Hw' : forall h, wsClient (step op s) = Some h ->
                            status_of (step op s) h = Some Closed).
    { intros h Hh. rewrite (wsClient_manager _ _ Hman) in Hh.
      apply closed_step; [done|]. by apply Hw. }
    specialize (IH (step op s)
                  (eq_trans (in_local_mode_manager _ _ Hman) Hmode)
                  Hw' Hops).
    destruct (step_sends op s) as [Hok _].
    unfold effects_since in *. rewrite Ht', Ht in *.
    rewrite <- app_assoc, drop_app_length.
    rewrite length_app, drop_app_length' in IH by (rewrite length_app; lia).
    rewrite drop_app_length in Hok.
    rewrite filter_app, IH, app_nil_r.
    apply (sends_impossible s es Hok Hmode).
    intros h' Hh'. by rewrite (Hw h' Hh').
Qed.

(** In remote mode, once [exit] has run, nothing is sent any more: no
    request and no event makes the plugin write to the socket or call
    [setActivity], until a settings update installs a new transport.  No
    handle is live after [exit]. *)
Theorem nothing_sent_after_exit_remote (s : State) (ops : list Op) :
  Reachable s ->
  in_local_mode s = false ->
  forallb (fun op => negb (is_settings op)) ops = true ->
  live (trace (step OpExit s)) = ∅ /\
  filter sends (effects_since s (run ops (step OpExit s))) = [].
Proof.
  intros Hr Hmode Hops. apply Reachable_Wf in Hr.
  pose proof (wf_inv s Hr) as HI.
  destruct (prop_has_props (config s) "mode" (inv_config s HI)) as [m Em].
  assert (El : is_string m "local" = false).
  { unfold in_local_mode in Hmode. by rewrite Em in Hmode. }
  pose proof (inv_mode s HI m Em) as Hrpc. rewrite El in Hrpc.
  pose proof (inv_live s HI) as Hlive. unfold held in Hlive.
  rewrite Hrpc in Hlive.
  assert (Hexit : manager (step OpExit s) = manager s /\
                  trace (step OpExit s) =
                    trace s ++ Console LvLog Yellow "Plugin exited" [] ::
                      release_effects None (wsClient s)).
  { unfold step, manager. rewrite exit_eq.
    cbn [state_of trace config rpcClient wsClient]. by rewrite Hrpc. }
  destruct Hexit as (Hman & Ht).
  split.
  - rewrite Ht, live_app. unfold release_effects.
    destruct (wsClient s);
      cbn [from_option app live_from fold_left track creates closes];
      set_solver.
  - assert (Hw' : forall h, wsClient (step OpExit s) = Some h ->
                            status_of (step OpExit s) h = Some Closed).
    { intros h Hh. rewrite (wsClient_manager _ _ Hman) in Hh.
      assert (Hin : h ∈ held s) by (apply held_iff; auto).
      destruct (Wf_held s h Hr (Wf_held_in s h Hr Hin))
        as (m0 & c0 & a0 & st & _ & _ & _ & _ & _ & _ & _ & Ho).
      unfold step, status_of. rewrite exit_eq. cbn [state_of heap].
      rewrite lookup_close_held, Ho.
      by rewrite bool_decide_eq_true_2 by auto. }
    pose proof (silent_run ops (step OpExit s)
                  (eq_trans (in_local_mode_manager _ _ Hman) Hmode)
                  Hw' Hops) as Hsilent.
    destruct (run_passive ops (step OpExit s) Hops) as (_ & _ & es & Ht' & _).
    unfold effects_since in *. rewrite Ht', Ht in *.
    rewrite <- app_assoc, drop_app_length.
    rewrite length_app, drop_app_length' in Hsilent by (rewrite length_app; lia).
    rewrite filter_app, Hsilent, app_nil_r.
    unfold release_effects. by destruct (wsClient s).
Qed.

Lemma Wf_local s :
  Wf s -> in_local_mode s = true ->
  exists h m c a st,
    prop (config s) "mode" = Some m /\ is_string m "local" = true /\
    rpcClient s = Some h /\ wsClient s = None /\
    heap s !! h = Some (with_status st (new_object m c a)).
Proof.
  intros HW Hmode.
  destruct (wf_selected s HW) as (m & c & a & Em & Ec & Ea & _).
  assert (El : is_string m "local" = true).
  { unfold in_local_mode in Hmode. by rewrite Em in Hmode. }
  assert (Hk : constructible m a = true) by (unfold constructible; by rewrite El).
  destruct (Wf_some s m a HW Em Ea Hk) as [h Hsel].
  destruct (Wf_held s h HW Hsel)
    as (m' & c' & a' & st & Em' & _ & _ & _ & _ & Hrpc & Hws & Ho).
  assert (m' = m) as -> by congruence. rewrite El in Hrpc, Hws.
  exists h, m, c', a', st. done.
Qed.

(** In local mode [exit] destroys the client but keeps the reference: an
    update request served afterwards still calls [setActivity], on the
    closed client, with the four fields of its body.  The request is
    answered with 204, or with 500 after an error line when [setActivity]
    raises its [RangeError]. *)
Theorem setActivity_after_exit_local
  (s : State) (body details state largeImageKey startTimestamp : JsVal) :
  Reachable s ->
  in_local_mode s = true ->
  prop body "details" = Some details ->
  prop body "state" = Some state ->
  prop body "largeImageKey" = Some largeImageKey ->
  prop body "startTimestamp" = Some startTimestamp ->
  let payload :=
    JObj [("details", details); ("state", state);
          ("largeImageKey", largeImageKey); ("startTimestamp", startTimestamp)] in
  exists h,
    rpcClient s = Some h /\
    status_of (step OpExit s) h = Some Closed /\
    active_handle (step OpExit s) = None /\
    returned (update_handler body (step OpExit s)) =
      inl (if setActivity_rejects payload
           then StatusSend 500 "Internal Server Error" else SendStatus 204) /\
    effects_since (step OpExit s) (step (OpUpdate body) (step OpExit s)) =
      [Console LvLog Blue "/update payload:" [LogVal body];
       RpcSetActivity h payload] ++
      (if setActivity_rejects payload
       then [Console LvError Red "/update error" [LogExn RangeError]] else []).
Proof.
  intros Hr Hmode Ed Est Ek Ets payload. apply Reachable_Wf in Hr.
  destruct (Wf_local s Hr Hmode) as (h & m & c & a & st & Em & El & Hrpc & Hws & Ho).
  exists h. split; [done|].
  assert (Hexit : step OpExit s =
            mkState (config s) (Some h) None
              (close_held (Some h) None (heap s)) (next_handle s)
              (trace s ++ [Console LvLog Yellow "Plugin exited" []; RpcDestroy h])).
  { unfold step. rewrite exit_eq, Hrpc, Hws. reflexivity. }
  rewrite Hexit. split; [|split].
  - unfold status_of. cbn [heap].
    rewrite lookup_close_held, Ho. by rewrite bool_decide_eq_true_2 by auto.
  - apply no_active_after_close.
  - set (s1 := mkState (config s) (Some h) None
                  (close_held (Some h) None (heap s)) (next_handle s)
                  (trace s ++ [Console LvLog Yellow "Plugin exited" []; RpcDestroy h])).
    assert (Hup : update_handler body s1 =
              (let handed :=
                 add_effect (RpcSetActivity h payload)
                   (add_effect (Console LvLog Blue "/update payload:" [LogVal body])
                      s1) in
               if setActivity_rejects payload
               then Ok (StatusSend 500 "Internal Server Error")
                      (add_effect
                         (Console LvError Red "/update error" [LogExn RangeError])
                         handed)
               else Ok (SendStatus 204) handed)).
    { unfold update_handler, try_catch, bind, console_log, emit, modify,
        get_prop. rewrite Ed, Est, Ek, Ets. unfold ret at 1 2 3 4.
      erewrite (sendActivity_local_present _ _ m h);
        [| cbn [config rpcClient add_effect s1]; done ..].
      fold payload. unfold update_failed, console_error, emit, modify, bind, ret.
      by destruct (setActivity_rejects payload). }
    unfold step. rewrite Hup. unfold effects_since, s1. cbn zeta.
    set (t1 := trace s ++ [_; _]).
    destruct (setActivity_rejects payload);
      cbn [returned state_of trace add_effect];
      rewrite <- !app_assoc, drop_app_length; done.
Qed.
(** *** Requests and their answers *)

Lemma filter_none (f : Effect -> bool) es :
  Forall (fun e => f e = false) es -> filter f es = [].
Proof.
  intros Hn. induction Hn as [|e es He _ IH]; [done|].
  rewrite filter_cons_False; [done|]. intros Hf. by rewrite He in Hf.
Qed.

Lemma has_props_false v k : has_props v = false -> prop v k = None.
Proof. destruct v; cbn; congruence. Qed.

(** In remote mode [sendActivity] returns normally, after one effect. *)
Lemma sendActivity_remote activity s :
  has_props (config s) = true -> in_local_mode s = false ->
  exists e, sendActivity activity s = Ok tt (add_effect e s).
Proof.
  intros Hc Hmode. destruct (prop_has_props (config s) "mode" Hc) as [m Em].
  assert (El : is_string m "local" = false).
  { unfold in_local_mode in Hmode. by rewrite Em in Hmode. }
  destruct (wsClient s) as [h|] eqn:Hw.
  - destruct (status_of s h) as [[]|] eqn:Hst; eexists;
      first [ by apply (sendActivity_remote_open activity s m h)
            | apply (sendActivity_remote_closed activity s m);
              [done | done | right; exists h; split; [done|];
                             rewrite Hst; discriminate] ].
  - eexists. apply (sendActivity_remote_closed activity s m); auto.
Qed.

Lemma payload_of_body body d st k ts :
  prop body "details" = Some d ->
  prop body "state" = Some st ->
  prop body "largeImageKey" = Some k ->
  prop body "startTimestamp" = Some ts ->
  payload_of body =
  JObj [("details", d); ("state", st); ("largeImageKey", k);
        ("startTimestamp", ts)].
Proof. intros Ed Est Ek Ets. unfold payload_of. by rewrite Ed, Est, Ek, Ets. Qed.

(** A request body without properties ([null] or [undefined]) makes both the
    settings and the update endpoint answer 500 after an error line; the
    configuration and the transport stay as they are, nothing is written and
    nothing is sent. *)
Theorem body_without_properties_rejected (s : State) (body : JsVal) (write_ok : bool) :
  has_props body = false ->
  settings_handler body write_ok s =
    Ok (StatusSend 500 "Internal Server Error")
       (add_effects
          [Console LvError Red "Settings update failed" [LogExn TypeError]] s) /\
  update_handler body s =
    Ok (StatusSend 500 "Internal Server Error")
       (add_effects
          [Console LvLog Blue "/update payload:" [LogVal body];
           Console LvError Red "/update error" [LogExn TypeError]] s).
Proof.
  intros Hb. split.
  - by rewrite (settings_rejected body write_ok s (has_props_false body _ Hb)).
  - destruct s as [cfg rpc ws hp n tr].
    pose proof (has_props_false body "details" Hb) as Ed.
    norm. unfold add_effects. cbn. by rewrite <- app_assoc.
Qed.

(** In every state of a run the update endpoint answers a body that has
    properties with 204, whether the activity was sent or the send was
    skipped, except when [setActivity] raises its [RangeError] on the object
    of the four fields: then it answers 500.  It changes neither the three
    variables nor any library object. *)
Theorem update_answer_by_transport (s : State) (body : JsVal) :
  Reachable s ->
  has_props body = true ->
  exists s',
    update_handler body s =
      Ok (if transport_rejects s (payload_of body)
          then StatusSend 500 "Internal Server Error"
          else SendStatus 204) s' /\
    manager s' = manager s /\ heap s' = heap s.
Proof.
  intros Hr Hb. apply Reachable_Wf in Hr.
  destruct (prop_has_props body "details" Hb) as [d Ed].
  destruct (prop_has_props body "state" Hb) as [st Est].
  destruct (prop_has_props body "largeImageKey" Hb) as [k Ek].
  destruct (prop_has_props body "startTimestamp" Hb) as [ts Ets].
  rewrite (payload_of_body body d st k ts Ed Est Ek Ets).
  unfold transport_rejects, update_handler, try_catch, bind, console_log, emit,
    modify, get_prop.
  rewrite Ed, Est, Ek, Ets. unfold ret at 1 2 3 4.
  destruct (in_local_mode s) eqn:Hmode; cbn [andb].
  - destruct (Wf_local s Hr Hmode)
      as (h & m & c & a & st' & Em & El & Hrpc & Hws & Ho).
    erewrite (sendActivity_local_present _ _ m h);
      [| destruct s; cbn [config rpcClient add_effect] in *; done ..].
    unfold update_failed, console_error, emit, modify, bind, ret.
    destruct (setActivity_rejects _); eexists; (split; [reflexivity|]);
      by destruct s.
  - destruct (sendActivity_remote
                (JObj [("details", d); ("state", st); ("largeImageKey", k);
                       ("startTimestamp", ts)])
                (add_effect (Console LvLog Blue "/update payload:" [LogVal body]) s))
      as [e ->].
    + destruct s. apply (inv_config _ (wf_inv _ Hr)).
    + by destruct s.
    + eexists. split; [reflexivity|]. by destruct s.
Qed.

(** A failed write of the configuration file does not stop a settings
    update: the answer is the same as when the write succeeds (204 when a
    transport can be constructed for the new configuration, 500 when the
    WebSocket constructor refuses the url), the configuration is replaced
    and the transport is swapped or dropped exactly as when the write
    succeeds; only the file is not written, and an error line replaces the
    success line. *)
Theorem failed_write_does_not_abort (s : State) (body c m a : JsVal) :
  prop body "clientId" = Some c ->
  prop body "mode" = Some m ->
  prop body "agentUrl" = Some a ->
  exists s_ok s_fail rest,
    let answer := if constructible m a then SendStatus 204
                  else StatusSend 500 "Internal Server Error" in
    settings_handler body true s = Ok answer s_ok /\
    settings_handler body false s = Ok answer s_fail /\
    config s_ok = JObj [("clientId", c); ("mode", m); ("agentUrl", a)] /\
    manager s_fail = manager s_ok /\
    heap s_fail = heap s_ok /\
    next_handle s_fail = next_handle s_ok /\
    effects_since s s_ok =
      FsWrite (JSON_stringify_indent
                 (JObj [("clientId", c); ("mode", m); ("agentUrl", a)]) 2) ::
      Console LvLog Green "config.json updated" [] :: rest /\
    effects_since s s_fail =
      Console LvError Red "Failed to write config.json" [LogExn FsError] :: rest /\
    filter is_write rest = [].
Proof.
  intros Ec Em Ea. cbn zeta. destruct (constructible m a) eqn:Hk.
  - do 2 eexists.
    exists (release_effects (rpcClient s) (wsClient s) ++
            init_effects m c a (next_handle s)).
    split; [apply (settings_eq body true s c m a Ec Em Ea Hk)|].
    split; [apply (settings_eq body false s c m a Ec Em Ea Hk)|].
    unfold effects_since, manager.
    cbn [config rpcClient wsClient heap next_handle trace].
    rewrite !drop_app_length.
    do 6 (split; [done|]).
    apply filter_none. unfold release_effects, init_effects.
    destruct (rpcClient s), (wsClient s), (is_string m "local");
      cbn; repeat constructor.
  - do 2 eexists.
    exists (release_effects (rpcClient s) (wsClient s) ++ refusal_effects a).
    split; [apply (settings_refused body true s c m a Ec Em Ea Hk)|].
    split; [apply (settings_refused body false s c m a Ec Em Ea Hk)|].
    unfold effects_since, manager.
    cbn [config rpcClient wsClient heap next_handle trace].
    rewrite !drop_app_length.
    do 6 (split; [done|]).
    apply filter_none. unfold release_effects, refusal_effects.
    destruct (rpcClient s), (wsClient s); cbn; repeat constructor.
Qed.

(** The test endpoint has no [try]: in local mode, once the clock has passed
    2147483647000, [setActivity] raises its [RangeError] on the test
    activity and the request is left unanswered, with the call recorded and
    nothing else changed.  In remote mode the endpoint answers whatever the
    clock says. *)
Theorem test_unanswered_beyond_limit (s : State) (now : Z) :
  Reachable s ->
  (in_local_mode s = true -> (2147483647000 < now)%Z ->
   exists h s',
     rpcClient s = Some h /\
     test_handler now s = Throw RangeError s' /\
     manager s' = manager s /\ heap s' = heap s /\
     effects_since s s' =
       [Console LvLog Blue "/test invoked" []; RpcSetActivity h (dummy now)]) /\
  (in_local_mode s = false ->
   exists s',
     test_handler now s =
       Ok (SendJson (JObj [("success", JBool true); ("sent", dummy now)])) s' /\
     manager s' = manager s /\ heap s' = heap s).
Proof.
  intros Hr. apply Reachable_Wf in Hr. split.
  - intros Hmode Hn.
    destruct (Wf_local s Hr Hmode)
      as (h & m & c & a & st' & Em & El & Hrpc & Hws & Ho).
    exists h. eexists. split; [done|].
    unfold test_handler, bind, console_log, emit, modify.
    erewrite (sendActivity_local_present _ _ m h);
      [| destruct s; cbn [config rpcClient add_effect] in *; done ..].
    rewrite (dummy_rejected now Hn).
    split; [reflexivity|]. destruct s as [cfg rpc ws hp n tr].
    unfold effects_since. cbn [trace add_effect].
    rewrite <- app_assoc, drop_app_length. done.
  - intros Hmode. unfold test_handler, bind, console_log, emit, modify.
    destruct (sendActivity_remote (dummy now)
                (add_effect (Console LvLog Blue "/test invoked" []) s))
      as [e ->].
    + destruct s. apply (inv_config _ (wf_inv _ Hr)).
    + by destruct s.
    + eexists. split; [reflexivity|]. by destruct s.
Qed.

(** *** Start-up *)

(** [init] needs a configuration for which a transport can be constructed.
    When the file parsed to [null], [init] raises a [TypeError] right after
    its first log line.  When the mode of the configuration is not local and
    the WebSocket constructor refuses its [agentUrl] (the file held [{}],
    say), [init] raises the [SyntaxError] of the constructor.  In both cases
    no transport is constructed and no route is registered.  Otherwise
    [init] constructs one transport and registers the four routes, in the
    order probe, settings, update, test. *)
Theorem init_needs_usable_config (file : option string) :
  (has_props (fst (loadConfig file)) = false ->
   exists s',
     init (boot file) = Throw TypeError s' /\
     manager s' = manager (boot file) /\
     heap s' = ∅ /\
     effects_since (boot file) s' =
       [Console LvLog Green "Plugin init, loaded config:"
          [LogVal (fst (loadConfig file))]]) /\
  (forall m a,
     prop (fst (loadConfig file)) "mode" = Some m ->
     prop (fst (loadConfig file)) "agentUrl" = Some a ->
     constructible m a = false ->
     exists s',
       init (boot file) = Throw SyntaxError s' /\
       manager s' = manager (boot file) /\
       heap s' = ∅ /\
       effects_since (boot file) s' =
         [Console LvLog Green "Plugin init, loaded config:"
            [LogVal (fst (loadConfig file))];
          WsRefused a]) /\
  (forall m a,
     prop (fst (loadConfig file)) "mode" = Some m ->
     prop (fst (loadConfig file)) "agentUrl" = Some a ->
     constructible m a = true ->
     exists s0,
       init (boot file) = Ok tt s0 /\
       live (trace s0) = {[0]} /\ held s0 = {[0]} /\
       filter is_route (effects_since (boot file) s0) =
         [RouterPost "/probe"; RouterPost "/settings"; RouterPost "/update";
          RouterPost "/test"]).
Proof.
  split; [|split].
  - intros Hc. eexists. split; [by apply init_throws|].
    unfold effects_since, boot, manager.
    cbn [config rpcClient wsClient heap trace add_effect].
    by rewrite drop_app_length.
  - intros m a Em Ea Hk. eexists.
    split; [by apply (init_refused (boot file) m a)|].
    unfold effects_since, boot, manager.
    cbn [config rpcClient wsClient heap trace add_effect].
    by rewrite <- app_assoc, drop_app_length.
  - intros m a Em Ea Hk.
    change (fst (loadConfig file)) with (config (boot file)) in Em, Ea.
    pose proof (prop_Some_has_props _ _ _ Em) as Hc.
    destruct (prop_has_props _ "clientId" Hc) as [c Ec].
    eexists. split; [apply (init_eq _ m c a Em Ec Ea Hk)|].
    pose proof (loadConfig_trace file) as Htr.
    unfold effects_since, held, startup_effects, init_effects.
    cbn [config rpcClient wsClient heap next_handle trace boot].
    rewrite drop_app_length, live_app.
    split; [|split].
    + assert (live (snd (loadConfig file)) = ∅) as ->
        by (destruct Htr as [-> | ->]; reflexivity).
      destruct (is_string m "local");
        cbn [app live_from fold_left track creates closes]; set_solver.
    + destruct (is_string m "local"); set_solver.
    + destruct (is_string m "local"); reflexivity.
Qed.

(** What a settings update saved is what the next start loads, provided
    [JSON.parse] reads back the three fields that [JSON.stringify] wrote
    for the new configuration (a field that is [undefined] is not written
    and is [undefined] again when read).  The file is written before the
    transport is constructed: when a transport can be constructed, the
    update answers 204 and the next [init] builds the transport the update
    had built; when the WebSocket constructor refuses the url, the update
    answers 500 with no handle, the refused configuration is in the file all
    the same, and the next [init] raises the constructor's [SyntaxError]. *)
Theorem saved_config_is_loaded_back (s : State) (body c m a parsed : JsVal) :
  prop body "clientId" = Some c ->
  prop body "mode" = Some m ->
  prop body "agentUrl" = Some a ->
  JSON_parse (JSON_stringify_indent
                (JObj [("clientId", c); ("mode", m); ("agentUrl", a)]) 2) =
    Some parsed ->
  prop parsed "clientId" = Some c ->
  prop parsed "mode" = Some m ->
  prop parsed "agentUrl" = Some a ->
  exists s1 data,
    settings_handler body true s =
      Ok (if constructible m a then SendStatus 204
          else StatusSend 500 "Internal Server Error") s1 /\
    config s1 = JObj [("clientId", c); ("mode", m); ("agentUrl", a)] /\
    filter is_write (effects_since s s1) = [FsWrite data] /\
    loadConfig (Some data) = (parsed, []) /\
    if constructible m a
    then exists s0,
           init (boot (Some data)) = Ok tt s0 /\
           config s0 = parsed /\
           heap s0 !! 0 = Some (new_object m c a) /\
           heap s1 !! next_handle s = Some (new_object m c a)
    else exists s0,
           init (boot (Some data)) = Throw SyntaxError s0 /\
           held s1 = ∅ /\ held s0 = ∅ /\ heap s0 = ∅.
Proof.
  intros Ec Em Ea Hround Pc Pm Pa.
  assert (Hload : loadConfig
            (Some (JSON_stringify_indent
                     (JObj [("clientId", c); ("mode", m); ("agentUrl", a)]) 2)) =
          (parsed, [])).
  { unfold loadConfig. by rewrite Hround. }
  destruct (constructible m a) eqn:Hk.
  - do 2 eexists.
    split; [apply (settings_eq body true s c m a Ec Em Ea Hk)|].
    unfold effects_since. cbn [config heap trace]. rewrite drop_app_length.
    split; [done|]. split; [|split; [exact Hload|]].
    + rewrite filter_app. unfold save_effects at 1.
      rewrite (filter_none is_write (release_effects _ _ ++ init_effects _ _ _ _)).
      * reflexivity.
      * unfold release_effects, init_effects.
        destruct (rpcClient s), (wsClient s), (is_string m "local");
          cbn; repeat constructor.
    + eexists. unfold boot. rewrite Hload. cbn [fst snd].
      split; [by apply (init_eq _ m c a)|].
      cbn [config heap next_handle]. by rewrite !lookup_insert_eq.
  - do 2 eexists.
    split; [apply (settings_refused body true s c m a Ec Em Ea Hk)|].
    unfold effects_since. cbn [config heap trace]. rewrite drop_app_length.
    split; [done|]. split; [|split; [exact Hload|]].
    + rewrite filter_app. unfold save_effects at 1.
      rewrite (filter_none is_write (release_effects _ _ ++ refusal_effects _)).
      * reflexivity.
      * unfold release_effects, refusal_effects.
        destruct (rpcClient s), (wsClient s); cbn; repeat constructor.
    + eexists. unfold boot. rewrite Hload. cbn [fst snd].
      split; [by apply (init_refused _ m a)|].
      unfold held. cbn [rpcClient wsClient heap add_effect].
      repeat split; try done; set_solver.
Qed.
(** *** Connections *)

Lemma omap_passive es :
  Forall passive es -> omap creates es = [] /\ omap connects es = [].
Proof.
  intros Hp. induction Hp as [|e es [Hc Hn] _ [IH1 IH2]]; [done|].
  cbn. by rewrite Hc, Hn.
Qed.

Lemma settings_connects w cfg rpc ws m c a n :
  omap creates (save_effects w cfg ++ release_effects rpc ws ++ init_effects m c a n)
    = [n] /\
  omap connects (save_effects w cfg ++ release_effects rpc ws ++ init_effects m c a n)
    = [n].
Proof.
  unfold save_effects, release_effects, init_effects.
  by destruct w, rpc, ws, (is_string m "local").
Qed.

Lemma refused_passive w cfg rpc ws a :
  Forall passive (save_effects w cfg ++ release_effects rpc ws ++ refusal_effects a).
Proof.
  unfold save_effects, release_effects, refusal_effects.
  destruct w, rpc, ws; cbn; repeat constructor.
Qed.

Lemma connected_once_fresh (l : list nat) n :
  Forall (fun h => h < n) l -> NoDup l ->
  Forall (fun h => h < S n) (l ++ [n]) /\ NoDup (l ++ [n]).
Proof.
  intros Hlt Hnd. split.
  - apply Forall_app. split; [|by repeat constructor].
    eapply Forall_impl; [exact Hlt|]. cbn. lia.
  - apply NoDup_app. split; [done|]. split; [|apply NoDup_singleton].
    intros h Hh Hn. apply list_elem_of_singleton in Hn. subst h.
    rewrite Forall_forall in Hlt. apply Hlt in Hh. lia.
Qed.

Lemma connected_once_step op s :
  omap creates (trace s) = omap connects (trace s) ->
  Forall (fun h => h < next_handle s) (omap creates (trace s)) ->
  NoDup (omap creates (trace s)) ->
  omap creates (trace (step op s)) = omap connects (trace (step op s)) /\
  Forall (fun h => h < next_handle (step op s)) (omap creates (trace (step op s))) /\
  NoDup (omap creates (trace (step op s))).
Proof.
  intros Heq Hlt Hnd.
  assert (Hquietcase : forall s',
            next_handle s' = next_handle s ->
            (exists es, trace s' = trace s ++ es /\ Forall passive es) ->
            omap creates (trace s') = omap connects (trace s') /\
            Forall (fun h => h < next_handle s') (omap creates (trace s')) /\
            NoDup (omap creates (trace s'))).
  { intros s' Hn (es & -> & Hp). destruct (omap_passive es Hp) as [H1 H2].
    rewrite !omap_app, H1, H2, !app_nil_r, Hn. done. }
  destruct (is_settings op) eqn:Hop.
  2:{ destruct (step_passive op s Hop) as (Hman & Hn & Hes). by apply Hquietcase. }
  destruct op as [|body w| | | |]; try discriminate. unfold step.
  destruct (prop body "clientId") as [c|] eqn:Ec.
  - destruct (body_props _ _ Ec) as (m & a & Em & Ea).
    destruct (constructible m a) eqn:Hk.
    + rewrite (settings_eq body w s c m a Ec Em Ea Hk).
      cbn [state_of trace next_handle].
      destruct (settings_connects w
                  (JObj [("clientId", c); ("mode", m); ("agentUrl", a)])
                  (rpcClient s) (wsClient s) m c a (next_handle s)) as [H1 H2].
      rewrite (omap_app creates (trace s)), (omap_app connects (trace s)), H1, H2.
      split; [by rewrite Heq|]. by apply connected_once_fresh.
    + rewrite (settings_refused body w s c m a Ec Em Ea Hk). cbn [state_of].
      apply Hquietcase; [done|].
      eexists. split; [reflexivity|]. apply refused_passive.
  - rewrite (settings_rejected body w s Ec). cbn [state_of].
    apply Hquietcase; [by destruct s|].
    destruct s. eexists. split; [reflexivity|]. by repeat constructor.
Qed.

(** Along a run every transport object is connected exactly once, when it is
    constructed, and no object is constructed twice: the handles the plugin
    started to connect are, in order, the handles it constructed.  No
    request and no event makes it connect again. *)
Theorem every_handle_connected_once (s : State) :
  Reachable s ->
  omap connects (trace s) = omap creates (trace s) /\
  NoDup (omap creates (trace s)) /\
  length (omap creates (trace s)) = next_handle s.
Proof.
  intros (file & s0 & ops & Hinit & ->).
  assert (Hgoal : forall ops s,
            omap creates (trace s) = omap connects (trace s) ->
            Forall (fun h => h < next_handle s) (omap creates (trace s)) ->
            NoDup (omap creates (trace s)) ->
            length (omap creates (trace s)) = next_handle s ->
            omap connects (trace (run ops s)) = omap creates (trace (run ops s)) /\
            NoDup (omap creates (trace (run ops s))) /\
            length (omap creates (trace (run ops s))) = next_handle (run ops s)).
  { clear. induction ops as [|op ops IH]; intros s Heq Hlt Hnd Hlen; [done|].
    cbn [run fold_left]. fold (run ops (step op s)).
    destruct (connected_once_step op s Heq Hlt Hnd) as (H1 & H2 & H3).
    apply IH; try done.
    destruct (is_settings op) eqn:Hop.
    - destruct op as [|body w| | | |]; try discriminate. unfold step.
      destruct (prop body "clientId") as [c|] eqn:Ec.
      + destruct (body_props _ _ Ec) as (m & a & Em & Ea).
        destruct (constructible m a) eqn:Hk.
        * rewrite (settings_eq body w s c m a Ec Em Ea Hk).
          cbn [state_of trace next_handle].
          destruct (settings_connects w
                      (JObj [("clientId", c); ("mode", m); ("agentUrl", a)])
                      (rpcClient s) (wsClient s) m c a (next_handle s)) as [H1' _].
          rewrite (omap_app creates (trace s)), H1', length_app, Hlen. cbn. lia.
        * rewrite (settings_refused body w s c m a Ec Em Ea Hk).
          cbn [state_of trace next_handle].
          destruct (omap_passive _ (refused_passive w
                      (JObj [("clientId", c); ("mode", m); ("agentUrl", a)])
                      (rpcClient s) (wsClient s) a)) as [Hc' _].
          by rewrite (omap_app creates (trace s)), Hc', app_nil_r.
      + rewrite (settings_rejected body w s Ec). destruct s.
        cbn [state_of trace next_handle add_effect] in *.
        by rewrite omap_app, app_nil_r.
    - destruct (step_passive op s Hop) as (_ & Hn & es & Ht & Hp).
      destruct (omap_passive es Hp) as [Hc _].
      by rewrite Ht, omap_app, Hc, app_nil_r, Hn. }
  destruct (has_props (config (boot file))) eqn:Hc.
  2:{ rewrite init_throws in Hinit by done. discriminate. }
  destruct (prop_has_props _ "mode" Hc) as [m Em].
  destruct (prop_has_props _ "clientId" Hc) as [c Ec].
  destruct (prop_has_props _ "agentUrl" Hc) as [a Ea].
  destruct (constructible m a) eqn:Hk.
  2:{ rewrite (init_refused _ m a Em Ea Hk) in Hinit. discriminate. }
  rewrite (init_eq _ m c a Em Ec Ea Hk) in Hinit. injection Hinit as <-.
  pose proof (loadConfig_trace file) as Htr.
  apply Hgoal; cbn [trace next_handle boot]; unfold startup_effects, init_effects;
    destruct Htr as [-> | ->], (is_string m "local"); cbn;
    try done; repeat constructor; set_solver.
Qed.
End Properties.

(** ** The statements at the sample inputs *)

#[local] Existing Instance sample_builtins.

Lemma sample_started_reachable : Reachable sample_started.
Proof. exists None, sample_started, []. split; vm_compute; reflexivity. Qed.

Lemma sample_remote_reachable : Reachable sample_remote.
Proof.
  exists None, sample_started, [OpSettings sample_remote_body true].
  split; vm_compute; reflexivity.
Qed.

Lemma C5_remote_dispatch_before_open_witness :
  prop (config sample_remote) "mode" = Some (JStr "remote") /\
  (wsClient sample_remote = None \/
   exists h, wsClient sample_remote = Some h /\
             status_of sample_remote h <> Some Ready) /\
  sendActivity sample_update_body sample_remote =
    Ok tt (add_effect (Console LvError Red "WebSocket client not connected" [])
             sample_remote) /\
  filter sends
    (effects_since sample_remote
       (state_of (sendActivity sample_update_body sample_remote))) = [] /\
  (forall body, has_props body = true ->
     update_handler body sample_remote =
       Ok (SendStatus 204)
          (add_effect (Console LvError Red "WebSocket client not connected" [])
             (add_effect (Console LvLog Blue "/update payload:" [LogVal body])
                sample_remote))).
Proof.
  assert (Hm : prop (config sample_remote) "mode" = Some (JStr "remote"))
    by (vm_compute; reflexivity).
  assert (Hw : wsClient sample_remote = None \/
               exists h, wsClient sample_remote = Some h /\
                         status_of sample_remote h <> Some Ready).
  { right. exists 1. split; [vm_compute; reflexivity|]. vm_compute. discriminate. }
  split; [exact Hm|]. split; [exact Hw|].
  exact (C5_remote_dispatch_before_open sample_remote sample_update_body Hm Hw).
Defined.

(** C5 as the claim words it, refuted: the claim has [sendActivity] return a
    not-connected outcome to its caller.  With the socket still connecting
    and with the socket open the call returns the same value, [undefined],
    and the update endpoint gives the same answer, 204: nothing that a
    caller receives tells the two apart. *)
Lemma C5_not_connected_is_not_returned :
  active_handle sample_remote = None /\
  active_handle sample_remote_open = Some 1 /\
  returned (sendActivity sample_update_body sample_remote) = inl tt /\
  returned (sendActivity sample_update_body sample_remote_open) = inl tt /\
  returned (update_handler sample_update_body sample_remote) =
    inl (SendStatus 204) /\
  returned (update_handler sample_update_body sample_remote_open) =
    inl (SendStatus 204) /\
  ~ (exists distinguish : unit + Exn -> bool,
       distinguish (returned (sendActivity sample_update_body sample_remote)) = true /\
       distinguish (returned (sendActivity sample_update_body sample_remote_open)) = false).
Proof.
  split; [vm_compute; reflexivity|].
  split; [vm_compute; reflexivity|].
  split; [vm_compute; reflexivity|].
  split; [vm_compute; reflexivity|].
  split; [vm_compute; reflexivity|].
  split; [vm_compute; reflexivity|].
  intros (d & H1 & H2).
  change (returned (sendActivity sample_update_body sample_remote))
    with (inl (B := Exn) tt) in H1.
  change (returned (sendActivity sample_update_body sample_remote_open))
    with (inl (B := Exn) tt) in H2.
  congruence.
Qed.

Lemma C9_loadConfig_fallback_witness :
  JSON_parse "oops" = None /\
  JSON_parse "{}" = Some (JObj []) /\
  loadConfig None =
    (JObj [("clientId", JStr ""); ("mode", JStr "local"); ("agentUrl", JStr "")],
     [Console LvWarn Yellow "config.json not found or invalid, using defaults." []]) /\
  loadConfig (Some "oops") =
    (JObj [("clientId", JStr ""); ("mode", JStr "local"); ("agentUrl", JStr "")],
     [Console LvWarn Yellow "config.json not found or invalid, using defaults." []]) /\
  loadConfig (Some "{}") = (JObj [], []).
Proof.
  assert (Hbad : JSON_parse "oops" = None) by (vm_compute; reflexivity).
  assert (Hgood : JSON_parse "{}" = Some (JObj [])) by (vm_compute; reflexivity).
  split; [exact Hbad|]. split; [exact Hgood|].
  split; [|split].
  - exact (proj1 (C9_loadConfig_fallback None) (or_introl eq_refl)).
  - exact (proj1 (C9_loadConfig_fallback (Some "oops"))
             (or_intror (ex_intro _ "oops" (conj eq_refl Hbad)))).
  - exact (proj2 (C9_loadConfig_fallback (Some "{}")) "{}" (JObj []) eq_refl Hgood).
Defined.


Lemma C4_payload_unmodified_witness :
  active_handle sample_remote_open = Some 1 /\
  active_handle sample_local_ready = Some 0 /\
  prop sample_update_body "details" = Some (JStr "D") /\
  prop sample_update_body "state" = Some (JStr "S") /\
  prop sample_update_body "largeImageKey" = Some (JStr "K") /\
  prop sample_update_body "startTimestamp" = Some (JNum 1700000000000) /\
  prop sample_late_body "startTimestamp" = Some (JNum 2147483647001) /\
  update_handler sample_update_body sample_remote_open =
    Ok (SendStatus 204)
       (add_effect (WsSend 1 (JSON_stringify sample_update_body))
          (add_effect
             (Console LvLog Blue "/update payload:" [LogVal sample_update_body])
             sample_remote_open)) /\
  filter sends
    (effects_since sample_remote_open
       (state_of (update_handler sample_update_body sample_remote_open))) =
    [WsSend 1 (JSON_stringify sample_update_body)] /\
  update_handler sample_late_body sample_local_ready =
    Ok (StatusSend 500 "Internal Server Error")
       (add_effect (Console LvError Red "/update error" [LogExn RangeError])
          (add_effect (RpcSetActivity 0 sample_late_body)
             (add_effect
                (Console LvLog Blue "/update payload:" [LogVal sample_late_body])
                sample_local_ready))) /\
  filter sends
    (effects_since sample_local_ready
       (state_of (update_handler sample_late_body sample_local_ready))) =
    [RpcSetActivity 0 sample_late_body].
Proof.
  assert (Ha : active_handle sample_remote_open = Some 1)
    by (vm_compute; reflexivity).
  assert (Hb : active_handle sample_local_ready = Some 0)
    by (vm_compute; reflexivity).
  pose proof (C4_payload_unmodified sample_remote_open 1 sample_update_body
                (JStr "D") (JStr "S") (JStr "K") (JNum 1700000000000)
                Ha eq_refl eq_refl eq_refl eq_refl) as (_ & Hupd & Hsent & _).
  pose proof (C4_payload_unmodified sample_local_ready 0 sample_late_body
                (JStr "D") (JStr "S") (JStr "K") (JNum 2147483647001)
                Hb eq_refl eq_refl eq_refl eq_refl) as (_ & Hupd' & Hsent' & _).
  split; [exact Ha|]. split; [exact Hb|]. do 5 (split; [reflexivity|]).
  split; [exact Hupd|]. split; [exact Hsent|].
  split; [exact Hupd' | exact Hsent'].
Defined.

Lemma C6_socket_close_not_logged_witness :
  WebSocket_rejects (JStr "ws://agent") = false /\
  let started := state_of (init (boot None)) in
  let remote := JObj [("mode", JStr "remote"); ("agentUrl", JStr "ws://agent")] in
  let s := run [OpSettings remote true; OpDeliver 1 EvOpen JUndefined] started in
  let s' := step (OpDeliver 1 EvClose JUndefined) s in
  let local := run [OpDeliver 0 EvReady JUndefined] started in
  let local' := step (OpDeliver 0 EvClose JUndefined) local in
  active_handle s = Some 1 /\
  status_of s' 1 = Some Closed /\
  effects_since s s' = [] /\
  manager s' = manager s /\
  active_handle local = Some 0 /\
  status_of local' 0 = Some Closed /\
  effects_since local local' =
    [Console LvWarn Yellow "Local RPC transport closed" []] /\
  manager local' = manager local.
Proof.
  assert (Hacc : WebSocket_rejects (JStr "ws://agent") = false) by reflexivity.
  split; [exact Hacc|].
  exact (C6_socket_close_not_logged Hacc).
Defined.

Lemma C8_replace_no_rollback_witness :
  Reachable sample_started /\
  prop sample_remote_body "clientId" = Some JUndefined /\
  prop sample_remote_body "mode" = Some (JStr "remote") /\
  prop sample_remote_body "agentUrl" = Some (JStr "ws://agent") /\
  constructible (JStr "remote") (JStr "ws://agent") = true /\
  prop sample_bad_body "clientId" = Some (JStr "abc") /\
  prop sample_bad_body "mode" = Some (JStr "remote") /\
  prop sample_bad_body "agentUrl" = Some (JStr "") /\
  constructible (JStr "remote") (JStr "") = false /\
  (exists s1,
     settings_handler sample_remote_body true sample_started =
       Ok (if constructible (JStr "remote") (JStr "ws://agent")
           then SendStatus 204
           else StatusSend 500 "Internal Server Error") s1 /\
     config s1 =
       JObj [("clientId", JUndefined); ("mode", JStr "remote");
             ("agentUrl", JStr "ws://agent")] /\
     held s1 =
       (if constructible (JStr "remote") (JStr "ws://agent")
        then {[next_handle sample_started]} else ∅) /\
     forall ops,
       forallb (fun op => negb (is_settings op)) ops = true ->
       manager (run ops s1) = manager s1 /\
       (forall h, h ∈ held sample_started ->
          (h ∉ held (run ops s1)) /\
          (is_Some (heap sample_started !! h) ->
           status_of (run ops s1) h = Some Closed)) /\
       Forall passive (effects_since s1 (run ops s1)) /\
       (forall ops1 ops2 h,
          ops = ops1 ++ ops2 -> h ∈ held s1 ->
          status_of (run ops1 s1) h = Some Closed ->
          active_handle (run ops s1) = None) /\
       (constructible (JStr "remote") (JStr "ws://agent") = false ->
        active_handle (run ops s1) = None)) /\
  (exists s1,
     settings_handler sample_bad_body true sample_started =
       Ok (if constructible (JStr "remote") (JStr "")
           then SendStatus 204
           else StatusSend 500 "Internal Server Error") s1 /\
     config s1 = sample_bad_body /\
     held s1 =
       (if constructible (JStr "remote") (JStr "")
        then {[next_handle sample_started]} else ∅) /\
     forall ops,
       forallb (fun op => negb (is_settings op)) ops = true ->
       manager (run ops s1) = manager s1 /\
       (forall h, h ∈ held sample_started ->
          (h ∉ held (run ops s1)) /\
          (is_Some (heap sample_started !! h) ->
           status_of (run ops s1) h = Some Closed)) /\
       Forall passive (effects_since s1 (run ops s1)) /\
       (forall ops1 ops2 h,
          ops = ops1 ++ ops2 -> h ∈ held s1 ->
          status_of (run ops1 s1) h = Some Closed ->
          active_handle (run ops s1) = None) /\
       (constructible (JStr "remote") (JStr "") = false ->
        active_handle (run ops s1) = None)).
Proof.
  assert (Hr : Reachable sample_started).
  { exists None, sample_started, []. split; vm_compute; reflexivity. }
  split; [exact Hr|]. do 8 (split; [reflexivity|]). split.
  - exact (C8_replace_no_rollback sample_started sample_remote_body
             JUndefined (JStr "remote") (JStr "ws://agent") true
             Hr eq_refl eq_refl eq_refl).
  - exact (C8_replace_no_rollback sample_started sample_bad_body
             (JStr "abc") (JStr "remote") (JStr "") true
             Hr eq_refl eq_refl eq_refl).
Defined.

Lemma C3_swap_safety_witness :
  Reachable sample_started /\
  constructible (JStr "remote") (JStr "ws://agent") = true /\
  constructible (JStr "local") JUndefined = true /\
  forallb in_between
    [OpDeliver 1 EvOpen JUndefined; OpUpdate sample_update_body] = true /\
  exists s1 s2 hA hB,
    settings_handler sample_remote_body true sample_started = Ok (SendStatus 204) s1 /\
    settings_handler sample_local_body false
      (run [OpDeliver 1 EvOpen JUndefined; OpUpdate sample_update_body] s1) =
      Ok (SendStatus 204) s2 /\
    held s1 = {[hA]} /\
    held (run [OpDeliver 1 EvOpen JUndefined; OpUpdate sample_update_body] s1) =
      {[hA]} /\
    held s2 = {[hB]} /\ hA <> hB /\
    live (trace s2) = {[hB]} /\
    config s2 =
      JObj [("clientId", JStr "abc"); ("mode", JStr "local");
            ("agentUrl", JUndefined)] /\
    heap s2 !! hB = Some (new_object (JStr "local") (JStr "abc") JUndefined) /\
    status_of s2 hA = Some Closed /\
    (exists pre c post,
       effects_since s1 s2 = pre ++ c :: post /\
       closes c = Some hA /\
       Forall quiet pre /\
       Forall (fun e => closes e = None) post /\
       Exists (fun e => connects e = Some hB) post) /\
    (forall s' ev arg, manager (state_of (deliver hA ev arg s')) = manager s').
Proof.
  assert (Hr : Reachable sample_started).
  { exists None, sample_started, []. split; vm_compute; reflexivity. }
  split; [exact Hr|]. do 3 (split; [reflexivity|]).
  exact (C3_swap_safety sample_started sample_remote_body sample_local_body
           JUndefined (JStr "remote") (JStr "ws://agent")
           (JStr "abc") (JStr "local") JUndefined true false
           [OpDeliver 1 EvOpen JUndefined; OpUpdate sample_update_body]
           Hr eq_refl eq_refl eq_refl eq_refl eq_refl eq_refl
           eq_refl eq_refl eq_refl).
Defined.

(** C3 as the claim words it, for every pair of configurations, refuted:
    the second configuration is remote with an empty [agentUrl].  The
    handler closes the handle of the first configuration, the WebSocket
    constructor raises, the answer is 500 and no handle at all is left. *)
Lemma C3_refused_url_leaves_no_handle :
  Reachable sample_remote /\
  held sample_remote = {[1]} /\
  prop sample_bad_body "clientId" = Some (JStr "abc") /\
  prop sample_bad_body "mode" = Some (JStr "remote") /\
  prop sample_bad_body "agentUrl" = Some (JStr "") /\
  returned (settings_handler sample_bad_body true sample_remote) =
    inl (StatusSend 500 "Internal Server Error") /\
  config (step (OpSettings sample_bad_body true) sample_remote) = sample_bad_body /\
  status_of (step (OpSettings sample_bad_body true) sample_remote) 1 = Some Closed /\
  rpcClient (step (OpSettings sample_bad_body true) sample_remote) = None /\
  wsClient (step (OpSettings sample_bad_body true) sample_remote) = None /\
  ~ (exists hB, held (step (OpSettings sample_bad_body true) sample_remote) = {[hB]}).
Proof.
  split; [apply sample_remote_reachable|].
  split.
  { apply set_eq. intros h. rewrite held_iff, elem_of_singleton.
    change (rpcClient sample_remote) with (@None handle).
    change (wsClient sample_remote) with (Some 1).
    split; [intros [[=] | [= <-]]; done | intros ->; by right]. }
  do 3 (split; [reflexivity|]).
  split; [vm_compute; reflexivity|].
  split; [vm_compute; reflexivity|].
  split; [vm_compute; reflexivity|].
  split; [vm_compute; reflexivity|].
  split; [vm_compute; reflexivity|].
  intros [hB HB].
  assert (Hin : hB ∈ held (step (OpSettings sample_bad_body true) sample_remote))
    by (rewrite HB; set_solver).
  apply held_iff in Hin.
  change (rpcClient (step (OpSettings sample_bad_body true) sample_remote))
    with (@None handle) in Hin.
  change (wsClient (step (OpSettings sample_bad_body true) sample_remote))
    with (@None handle) in Hin.
  by destruct Hin.
Qed.

Lemma C2_single_handle_witness :
  Reachable sample_remote /\
  init (boot None) = Ok tt sample_started /\
  ((rpcClient sample_remote = None \/ wsClient sample_remote = None) /\
   live (trace sample_remote) ⊆ held sample_remote /\
   size (live (trace sample_remote)) <= 1 /\
   swap_ok ∅ (trace sample_remote) = true) /\
  Inv sample_started /\
  Inv (step OpExit sample_started) /\
  Inv (step (OpSettings sample_bad_body true) sample_started) /\
  Inv (state_of (sendActivity sample_late_body sample_started)) /\
  exists s_mid,
    settings_handler sample_remote_body true sample_started =
      try_catch (initTransport >> ret (SendStatus 204)) settings_failed s_mid /\
    rpcClient s_mid = None /\ wsClient s_mid = None /\
    live (trace s_mid) = ∅ /\
    Forall (fun e => creates e = None) (effects_since sample_started s_mid).
Proof.
  assert (Hr : Reachable sample_remote).
  { exists None, sample_started, [OpSettings sample_remote_body true].
    split; vm_compute; reflexivity. }
  assert (Hi : init (boot None) = Ok tt sample_started)
    by (vm_compute; reflexivity).
  destruct C2_single_handle as (Hreach & Hinit & Hstep & Hsend & Hswap).
  pose proof (Hinit None sample_started Hi) as HI.
  split; [exact Hr|]. split; [exact Hi|].
  split; [exact (Hreach sample_remote Hr)|].
  split; [exact HI|].
  split; [exact (Hstep OpExit sample_started HI)|].
  split; [exact (Hstep (OpSettings sample_bad_body true) sample_started HI)|].
  split; [exact (Hsend sample_late_body sample_started HI)|].
  exact (Hswap sample_remote_body true sample_started
           JUndefined (JStr "remote") (JStr "ws://agent")
           eq_refl eq_refl eq_refl HI).
Defined.

(** ** The further properties at the sample inputs *)

Lemma sample_refused_reachable : Reachable sample_refused.
Proof.
  exists None, sample_started, [OpSettings sample_bad_body true].
  split; vm_compute; reflexivity.
Qed.

Lemma selected_handle_matches_config_witness :
  Reachable sample_remote /\
  Reachable sample_refused /\
  (exists m a,
     prop (config sample_remote) "mode" = Some m /\
     prop (config sample_remote) "agentUrl" = Some a /\
     if constructible m a
     then exists h o,
            held sample_remote = {[h]} /\ heap sample_remote !! h = Some o /\
            (if in_local_mode sample_remote
             then rpcClient sample_remote = Some h /\ wsClient sample_remote = None /\
                  obj_kind o = RpcClientObj /\
                  prop (config sample_remote) "clientId" = Some (obj_target o)
             else wsClient sample_remote = Some h /\ rpcClient sample_remote = None /\
                  obj_kind o = WebSocketObj /\
                  prop (config sample_remote) "agentUrl" = Some (obj_target o))
     else in_local_mode sample_remote = false /\ held sample_remote = ∅ /\
          rpcClient sample_remote = None /\ wsClient sample_remote = None) /\
  (exists m a,
     prop (config sample_refused) "mode" = Some m /\
     prop (config sample_refused) "agentUrl" = Some a /\
     if constructible m a
     then exists h o,
            held sample_refused = {[h]} /\ heap sample_refused !! h = Some o /\
            (if in_local_mode sample_refused
             then rpcClient sample_refused = Some h /\ wsClient sample_refused = None /\
                  obj_kind o = RpcClientObj /\
                  prop (config sample_refused) "clientId" = Some (obj_target o)
             else wsClient sample_refused = Some h /\ rpcClient sample_refused = None /\
                  obj_kind o = WebSocketObj /\
                  prop (config sample_refused) "agentUrl" = Some (obj_target o))
     else in_local_mode sample_refused = false /\ held sample_refused = ∅ /\
          rpcClient sample_refused = None /\ wsClient sample_refused = None).
Proof.
  assert (Hr : Reachable sample_remote).
  { exists None, sample_started, [OpSettings sample_remote_body true].
    split; vm_compute; reflexivity. }
  assert (Hr' : Reachable sample_refused).
  { exists None, sample_started, [OpSettings sample_bad_body true].
    split; vm_compute; reflexivity. }
  split; [exact Hr|]. split; [exact Hr'|]. split.
  - exact (selected_handle_matches_config sample_remote Hr).
  - exact (selected_handle_matches_config sample_refused Hr').
Defined.

Lemma current_handle_event_log_witness :
  Reachable sample_remote /\
  selected sample_remote = Some 1 /\
  exists s' agentUrl,
    deliver 1 EvError (JStr "boom") sample_remote = Ok tt s' /\
    manager s' = manager sample_remote /\
    prop (config sample_remote) "agentUrl" = Some agentUrl /\
    effects_since sample_remote s' =
      (if in_local_mode sample_remote
       then local_event_log EvError (JStr "boom")
       else remote_event_log agentUrl EvError (JStr "boom")).
Proof.
  assert (Hr : Reachable sample_remote).
  { exists None, sample_started, [OpSettings sample_remote_body true].
    split; vm_compute; reflexivity. }
  assert (Hsel : selected sample_remote = Some 1) by (vm_compute; reflexivity).
  split; [exact Hr|]. split; [exact Hsel|].
  exact (current_handle_event_log sample_remote 1 EvError (JStr "boom") Hr Hsel).
Defined.

Lemma replaced_handle_stays_closed_witness :
  Reachable sample_started /\
  has_props sample_remote_body = true /\
  0 ∈ held sample_started /\
  let s' := run [OpDeliver 0 EvReady JUndefined; OpUpdate sample_update_body;
                 OpSettings sample_local_body true]
                (step (OpSettings sample_remote_body true) sample_started) in
  status_of s' 0 = Some Closed /\
  (0 ∉ held s') /\
  active_handle s' <> Some 0.
Proof.
  assert (Hr : Reachable sample_started).
  { exists None, sample_started, []. split; vm_compute; reflexivity. }
  assert (Hh : 0 ∈ held sample_started).
  { apply (bool_decide_unpack (0 ∈ held sample_started)). vm_compute. exact I. }
  split; [exact Hr|]. split; [reflexivity|]. split; [exact Hh|].
  exact (replaced_handle_stays_closed sample_started sample_remote_body true 0
           [OpDeliver 0 EvReady JUndefined; OpUpdate sample_update_body;
            OpSettings sample_local_body true]
           Hr eq_refl Hh).
Defined.

Lemma nothing_sent_after_exit_remote_witness :
  Reachable sample_remote_open /\
  in_local_mode sample_remote_open = false /\
  live (trace (step OpExit sample_remote_open)) = ∅ /\
  filter sends
    (effects_since sample_remote_open
       (run [OpUpdate sample_update_body; OpTest 1700000000000;
             OpDeliver 1 EvOpen JUndefined; OpUpdate sample_update_body]
            (step OpExit sample_remote_open))) = [].
Proof.
  assert (Hr : Reachable sample_remote_open).
  { exists None, sample_started,
      [OpSettings sample_remote_body true; OpDeliver 1 EvOpen JUndefined].
    split; vm_compute; reflexivity. }
  split; [exact Hr|]. split; [reflexivity|].
  exact (nothing_sent_after_exit_remote sample_remote_open
           [OpUpdate sample_update_body; OpTest 1700000000000;
            OpDeliver 1 EvOpen JUndefined; OpUpdate sample_update_body]
           Hr eq_refl eq_refl).
Defined.

Lemma setActivity_after_exit_local_witness :
  Reachable sample_started /\
  in_local_mode sample_started = true /\
  prop sample_late_body "details" = Some (JStr "D") /\
  prop sample_late_body "state" = Some (JStr "S") /\
  prop sample_late_body "largeImageKey" = Some (JStr "K") /\
  prop sample_late_body "startTimestamp" = Some (JNum 2147483647001) /\
  exists h,
    rpcClient sample_started = Some h /\
    status_of (step OpExit sample_started) h = Some Closed /\
    active_handle (step OpExit sample_started) = None /\
    returned (update_handler sample_late_body (step OpExit sample_started)) =
      inl (if setActivity_rejects sample_late_body
           then StatusSend 500 "Internal Server Error" else SendStatus 204) /\
    effects_since (step OpExit sample_started)
      (step (OpUpdate sample_late_body) (step OpExit sample_started)) =
      [Console LvLog Blue "/update payload:" [LogVal sample_late_body];
       RpcSetActivity h sample_late_body] ++
      (if setActivity_rejects sample_late_body
       then [Console LvError Red "/update error" [LogExn RangeError]] else []).
Proof.
  assert (Hr : Reachable sample_started).
  { exists None, sample_started, []. split; vm_compute; reflexivity. }
  split; [exact Hr|]. do 5 (split; [reflexivity|]).
  exact (setActivity_after_exit_local sample_started sample_late_body
           (JStr "D") (JStr "S") (JStr "K") (JNum 2147483647001)
           Hr eq_refl eq_refl eq_refl eq_refl eq_refl).
Defined.

Lemma body_without_properties_rejected_witness :
  has_props JNull = false /\
  settings_handler JNull true sample_started =
    Ok (StatusSend 500 "Internal Server Error")
       (add_effects
          [Console LvError Red "Settings update failed" [LogExn TypeError]]
          sample_started) /\
  update_handler JNull sample_started =
    Ok (StatusSend 500 "Internal Server Error")
       (add_effects
          [Console LvLog Blue "/update payload:" [LogVal JNull];
           Console LvError Red "/update error" [LogExn TypeError]]
          sample_started).
Proof.
  split; [reflexivity|].
  exact (body_without_properties_rejected sample_started JNull true eq_refl).
Defined.

Lemma update_answer_by_transport_witness :
  Reachable sample_remote /\
  Reachable sample_started /\
  has_props sample_update_body = true /\
  has_props sample_late_body = true /\
  (exists s',
     update_handler sample_update_body sample_remote =
       Ok (if transport_rejects sample_remote (payload_of sample_update_body)
           then StatusSend 500 "Internal Server Error"
           else SendStatus 204) s' /\
     manager s' = manager sample_remote /\ heap s' = heap sample_remote) /\
  (exists s',
     update_handler sample_late_body sample_started =
       Ok (if transport_rejects sample_started (payload_of sample_late_body)
           then StatusSend 500 "Internal Server Error"
           else SendStatus 204) s' /\
     manager s' = manager sample_started /\ heap s' = heap sample_started) /\
  transport_rejects sample_remote (payload_of sample_update_body) = false /\
  transport_rejects sample_started (payload_of sample_late_body) = true.
Proof.
  assert (Hr : Reachable sample_remote).
  { exists None, sample_started, [OpSettings sample_remote_body true].
    split; vm_compute; reflexivity. }
  assert (Hr' : Reachable sample_started).
  { exists None, sample_started, []. split; vm_compute; reflexivity. }
  split; [exact Hr|]. split; [exact Hr'|]. do 2 (split; [reflexivity|]).
  split; [exact (update_answer_by_transport sample_remote sample_update_body
                   Hr eq_refl)|].
  split; [exact (update_answer_by_transport sample_started sample_late_body
                   Hr' eq_refl)|].
  split; vm_compute; reflexivity.
Defined.

Lemma failed_write_does_not_abort_witness :
  prop sample_bad_body "clientId" = Some (JStr "abc") /\
  prop sample_bad_body "mode" = Some (JStr "remote") /\
  prop sample_bad_body "agentUrl" = Some (JStr "") /\
  constructible (JStr "remote") (JStr "") = false /\
  exists s_ok s_fail rest,
    let answer := if constructible (JStr "remote") (JStr "")
                  then SendStatus 204
                  else StatusSend 500 "Internal Server Error" in
    settings_handler sample_bad_body true sample_started = Ok answer s_ok /\
    settings_handler sample_bad_body false sample_started = Ok answer s_fail /\
    config s_ok =
      JObj [("clientId", JStr "abc"); ("mode", JStr "remote");
            ("agentUrl", JStr "")] /\
    manager s_fail = manager s_ok /\
    heap s_fail = heap s_ok /\
    next_handle s_fail = next_handle s_ok /\
    effects_since sample_started s_ok =
      FsWrite (JSON_stringify_indent
                 (JObj [("clientId", JStr "abc"); ("mode", JStr "remote");
                        ("agentUrl", JStr "")]) 2) ::
      Console LvLog Green "config.json updated" [] :: rest /\
    effects_since sample_started s_fail =
      Console LvError Red "Failed to write config.json" [LogExn FsError] :: rest /\
    filter is_write rest = [].
Proof.
  do 4 (split; [reflexivity|]).
  exact (failed_write_does_not_abort sample_started sample_bad_body
           (JStr "abc") (JStr "remote") (JStr "")
           eq_refl eq_refl eq_refl).
Defined.

Lemma test_unanswered_beyond_limit_witness :
  Reachable sample_started /\
  in_local_mode sample_started = true /\
  (2147483647000 < 2147483647001)%Z /\
  exists h s',
    rpcClient sample_started = Some h /\
    test_handler 2147483647001 sample_started = Throw RangeError s' /\
    manager s' = manager sample_started /\ heap s' = heap sample_started /\
    effects_since sample_started s' =
      [Console LvLog Blue "/test invoked" [];
       RpcSetActivity h (dummy 2147483647001)].
Proof.
  assert (Hr : Reachable sample_started).
  { exists None, sample_started, []. split; vm_compute; reflexivity. }
  assert (Hn : (2147483647000 < 2147483647001)%Z) by lia.
  split; [exact Hr|]. split; [reflexivity|]. split; [exact Hn|].
  exact (proj1 (test_unanswered_beyond_limit sample_started 2147483647001 Hr)
           eq_refl Hn).
Defined.

Lemma init_needs_usable_config_witness :
  has_props (fst (loadConfig (Some "null"))) = false /\
  prop (fst (loadConfig (Some "{}"))) "mode" = Some JUndefined /\
  prop (fst (loadConfig (Some "{}"))) "agentUrl" = Some JUndefined /\
  constructible JUndefined JUndefined = false /\
  prop (fst (loadConfig None)) "mode" = Some (JStr "local") /\
  prop (fst (loadConfig None)) "agentUrl" = Some (JStr "") /\
  constructible (JStr "local") (JStr "") = true /\
  (exists s',
     init (boot (Some "null")) = Throw TypeError s' /\
     manager s' = manager (boot (Some "null")) /\
     heap s' = ∅ /\
     effects_since (boot (Some "null")) s' =
       [Console LvLog Green "Plugin init, loaded config:"
          [LogVal (fst (loadConfig (Some "null")))]]) /\
  (exists s',
     init (boot (Some "{}")) = Throw SyntaxError s' /\
     manager s' = manager (boot (Some "{}")) /\
     heap s' = ∅ /\
     effects_since (boot (Some "{}")) s' =
       [Console LvLog Green "Plugin init, loaded config:"
          [LogVal (fst (loadConfig (Some "{}")))];
        WsRefused JUndefined]) /\
  (exists s0,
     init (boot None) = Ok tt s0 /\
     live (trace s0) = {[0]} /\ held s0 = {[0]} /\
     filter is_route (effects_since (boot None) s0) =
       [RouterPost "/probe"; RouterPost "/settings"; RouterPost "/update";
        RouterPost "/test"]).
Proof.
  assert (Hnull : has_props (fst (loadConfig (Some "null"))) = false)
    by (vm_compute; reflexivity).
  assert (Hm : prop (fst (loadConfig (Some "{}"))) "mode" = Some JUndefined)
    by (vm_compute; reflexivity).
  assert (Ha : prop (fst (loadConfig (Some "{}"))) "agentUrl" = Some JUndefined)
    by (vm_compute; reflexivity).
  assert (Hk : constructible JUndefined JUndefined = false)
    by (vm_compute; reflexivity).
  assert (Hm' : prop (fst (loadConfig None)) "mode" = Some (JStr "local"))
    by (vm_compute; reflexivity).
  assert (Ha' : prop (fst (loadConfig None)) "agentUrl" = Some (JStr ""))
    by (vm_compute; reflexivity).
  assert (Hk' : constructible (JStr "local") (JStr "") = true)
    by (vm_compute; reflexivity).
  split; [exact Hnull|]. split; [exact Hm|]. split; [exact Ha|].
  split; [exact Hk|]. split; [exact Hm'|]. split; [exact Ha'|].
  split; [exact Hk'|]. split; [|split].
  - exact (proj1 (init_needs_usable_config (Some "null")) Hnull).
  - exact (proj1 (proj2 (init_needs_usable_config (Some "{}")))
             JUndefined JUndefined Hm Ha Hk).
  - exact (proj2 (proj2 (init_needs_usable_config None))
             (JStr "local") (JStr "") Hm' Ha' Hk').
Defined.

Lemma saved_config_is_loaded_back_witness :
  prop sample_full_body "clientId" = Some (JStr "abc") /\
  prop sample_full_body "mode" = Some (JStr "local") /\
  prop sample_full_body "agentUrl" = Some (JStr "") /\
  JSON_parse (Builtins := echo_builtins)
    (JSON_stringify_indent (Builtins := echo_builtins) sample_full_body 2) =
    Some sample_full_body /\
  exists s1 data,
    settings_handler (H := echo_builtins) sample_full_body true sample_remote =
      Ok (if constructible (H := echo_builtins) (JStr "local") (JStr "")
          then SendStatus 204
          else StatusSend 500 "Internal Server Error") s1 /\
    config s1 = sample_full_body /\
    filter is_write (effects_since sample_remote s1) = [FsWrite data] /\
    loadConfig (H := echo_builtins) (Some data) = (sample_full_body, []) /\
    if constructible (H := echo_builtins) (JStr "local") (JStr "")
    then exists s0,
           init (H := echo_builtins) (boot (H := echo_builtins) (Some data)) =
             Ok tt s0 /\
           config s0 = sample_full_body /\
           heap s0 !! 0 = Some (new_object (JStr "local") (JStr "abc") (JStr "")) /\
           heap s1 !! next_handle sample_remote =
             Some (new_object (JStr "local") (JStr "abc") (JStr ""))
    else exists s0,
           init (H := echo_builtins) (boot (H := echo_builtins) (Some data)) =
             Throw SyntaxError s0 /\
           held s1 = ∅ /\ held s0 = ∅ /\ heap s0 = ∅.
Proof.
  assert (Hround :
    JSON_parse (Builtins := echo_builtins)
      (JSON_stringify_indent (Builtins := echo_builtins) sample_full_body 2) =
    Some sample_full_body) by (vm_compute; reflexivity).
  do 3 (split; [reflexivity|]). split; [exact Hround|].
  exact (saved_config_is_loaded_back (H := echo_builtins) sample_remote
           sample_full_body (JStr "abc") (JStr "local") (JStr "") sample_full_body
           eq_refl eq_refl eq_refl Hround eq_refl eq_refl eq_refl).
Defined.

Lemma every_handle_connected_once_witness :
  Reachable sample_remote /\
  omap connects (trace sample_remote) = omap creates (trace sample_remote) /\
  NoDup (omap creates (trace sample_remote)) /\
  length (omap creates (trace sample_remote)) = next_handle sample_remote.
Proof.
  assert (Hr : Reachable sample_remote).
  { exists None, sample_started, [OpSettings sample_remote_body true].
    split; vm_compute; reflexivity. }
  split; [exact Hr|].
  exact (every_handle_connected_once sample_remote Hr).
Defined.
